(** * BGP anomaly detection notebook (archive/svm_nimda_1min.ipynb)

    A shallow embedding of the notebook's own logic: the relative-mean-shift
    feature selector, the train/test split and hyper-parameter search wiring,
    the evaluator's metric convention, the explainability guard and the
    persistence cells.  The first part holds the embedding, cell by cell, and
    the run of all cells as one script; the second part holds the properties.

    Numbers.  The notebook computes in float64.  Here a float64 is an exact
    rational, or one of the three special values +inf, -inf and NaN;
    rounding and overflow are outside the model.

    Libraries.  What pandas does to a frame and what [sklearn.metrics]
    returns are written out from their documentation.  What scikit-learn
    fits, scores and splits, what SHAP and LIME explain and what joblib and
    pandas write to disk are parameters ([Sk.Library],
    [Explainer.Explainability], [Persister.Persistence]); the properties
    hold for every instance, and [Toy] is an instance to compute with. *)

From stdpp Require Import gmap strings list fin_maps.
From Stdlib Require Import Ascii QArith Qabs Qround Lia Permutation Sorted.

Local Close Scope Q_scope.
Local Open Scope string_scope.
Local Open Scope list_scope.

(** ** float64, idealised *)

Module F64.

Inductive t : Type :=
| Fin (q : Q)
| PInf
| NInf
| NaN.

Definition zero : t := Fin 0%Q.

Definition is_nan (x : t) : bool :=
  match x with NaN => true | _ => false end.

Definition is_finite (x : t) : bool :=
  match x with Fin _ => true | _ => false end.

(** [x == y]: NaN differs from everything, itself included. *)
Definition eqb (x y : t) : bool :=
  match x, y with
  | Fin a, Fin b => Qeq_bool a b
  | PInf, PInf => true
  | NInf, NInf => true
  | _, _ => false
  end.

(** [x <= y]: false as soon as one side is NaN. *)
Definition leb (x y : t) : bool :=
  match x, y with
  | NaN, _ | _, NaN => false
  | NInf, _ => true
  | _, PInf => true
  | Fin a, Fin b => Qle_bool a b
  | _, _ => false
  end.

Definition sub (x y : t) : t :=
  match x, y with
  | NaN, _ | _, NaN => NaN
  | Fin a, Fin b => Fin (a - b)%Q
  | PInf, PInf | NInf, NInf => NaN
  | PInf, _ => PInf
  | NInf, _ => NInf
  | Fin _, PInf => NInf
  | Fin _, NInf => PInf
  end.

Definition sign_pos (q : Q) : bool := Qle_bool 0%Q q.

(** [x / y].  A zero divisor is the fault that the selector's guard
    ("Prevent division by zero") is there to exclude: [None]. *)
Definition div (x y : t) : option t :=
  match y with
  | NaN => Some NaN
  | Fin b =>
      if Qeq_bool b 0%Q then None
      else Some match x with
                | Fin a => Fin (a / b)%Q
                | PInf => if sign_pos b then PInf else NInf
                | NInf => if sign_pos b then NInf else PInf
                | NaN => NaN
                end
  | PInf | NInf =>
      Some match x with
           | Fin _ => zero
           | _ => NaN
           end
  end.

(** The builtin [abs]. *)
Definition abs (x : t) : t :=
  match x with
  | Fin q => Fin (Qabs q)
  | PInf | NInf => PInf
  | NaN => NaN
  end.

Fixpoint sum (l : list Q) : Q :=
  match l with
  | [] => 0%Q
  | x :: l' => (x + sum l')%Q
  end.

(** [Series.mean()]: the mean of no value at all is NaN. *)
Definition mean (l : list Q) : t :=
  match l with
  | [] => NaN
  | _ :: _ => Fin (sum l / inject_Z (Z.of_nat (length l)))%Q
  end.

End F64.

(** ** The part of pandas the notebook uses *)

Module DataFrame.

Definition Series : Type := list Q.

(** A frame has an index of [nrows] rows and named columns in table
    order; the [class] column is one of them. *)
Record t : Type := mk { nrows : nat; cols : list (string * Series) }.

Definition columns (df : t) : list string := map fst (cols df).

Fixpoint lookup_col (col : string) (l : list (string * Series)) : option Series :=
  match l with
  | [] => None
  | (c, s) :: l' => if String.eqb c col then Some s else lookup_col col l'
  end.

(** [df[col]]; [None] is [KeyError]. *)
Definition getitem (col : string) (df : t) : option Series :=
  lookup_col col (cols df).

(** [df.drop(col, axis=1)]; [None] is [KeyError]. *)
Definition drop (col : string) (df : t) : option t :=
  match getitem col df with
  | None => None
  | Some _ =>
      Some (mk (nrows df)
               (List.filter (fun cs => negb (String.eqb (fst cs) col)) (cols df)))
  end.

(** [s == v], element by element. *)
Definition eq_scalar (s : Series) (v : Q) : list bool :=
  map (fun x => Qeq_bool x v) s.

Fixpoint select (mask : list bool) (s : Series) : Series :=
  match mask, s with
  | b :: mask', x :: s' => if b then x :: select mask' s' else select mask' s'
  | _, _ => []
  end.

Definition count_true (mask : list bool) : nat :=
  length (List.filter (fun b : bool => b) mask).

(** [df[mask]]: the rows where the mask holds, every column kept. *)
Definition getrows (mask : list bool) (df : t) : t :=
  mk (count_true mask)
     (map (fun cs => (fst cs, select mask (snd cs))) (cols df)).

(** [df.empty]: no column or no row. *)
Definition empty (df : t) : bool :=
  (length (cols df) =? 0)%nat || (nrows df =? 0)%nat.

(** [df.iloc[i].values] and [df.values]. *)
Definition row (i : nat) (df : t) : list Q :=
  map (fun cs => nth i (snd cs) 0%Q) (cols df).

Definition values (df : t) : list (list Q) :=
  map (fun i => row i df) (seq 0 (nrows df)).

(** What pandas maintains for every frame: the columns are as long as
    the index and carry distinct names. *)
Definition wf (df : t) : Prop :=
  Forall (fun cs => length (snd cs) = nrows df) (cols df)
  /\ NoDup (columns df).

End DataFrame.

(** ** Cell 10: non-feature columns dropped, features and target separated *)

Module Prepare.

Import DataFrame.

Definition columns_to_drop : list string :=
  ["timestamp"; "timestamp2"; "Unnamed: 0"].

(** [col in df.columns] *)
Definition has_column (col : string) (df : DataFrame.t) : bool :=
  existsb (String.eqb col) (columns df).

Fixpoint drop_present (cols : list string) (df : DataFrame.t) : option DataFrame.t :=
  match cols with
  | [] => Some df
  | col :: cols' =>
      if has_column col df then df' ← drop col df; drop_present cols' df'
      else drop_present cols' df
  end.

(** The values of [df], [X] and [y] after the cell. *)
Definition cell10 (df : DataFrame.t)
    : option (DataFrame.t * DataFrame.t * Series) :=
  df ← drop_present columns_to_drop df;
  X ← drop "class" df;
  y ← getitem "class" df;
  Some (df, X, y).

End Prepare.

(** ** Cells 12 and 13: feature analysis and selection *)

Module FeatureSelector.

Import DataFrame.

(** A Python dict: insertion ordered, an assignment to a present key
    keeps the key's place. *)
Definition dict : Type := list (string * F64.t).

Fixpoint dict_set (k : string) (v : F64.t) (d : dict) : dict :=
  match d with
  | [] => [(k, v)]
  | (k', v') :: d' =>
      if String.eqb k' k then (k', v) :: d' else (k', v') :: dict_set k v d'
  end.

Fixpoint dict_get (k : string) (d : dict) : option F64.t :=
  match d with
  | [] => None
  | (k', v) :: d' => if String.eqb k' k then Some v else dict_get k d'
  end.

(** The guarded quotient of the loop body. *)
Definition relative_change (normal_mean anomaly_mean : F64.t) : option F64.t :=
  if F64.eqb normal_mean F64.zero then
    if F64.eqb anomaly_mean F64.zero then Some F64.zero
    else Some F64.PInf
  else F64.div (F64.sub anomaly_mean normal_mean) normal_mean.

Definition normal_mean_of (normal : DataFrame.t) (col : string) : option F64.t :=
  s ← getitem col normal; Some (F64.mean s).

(** [anomaly[col].mean() if not anomaly.empty else 0] *)
Definition anomaly_mean_of (anomaly : DataFrame.t) (col : string) : option F64.t :=
  if negb (empty anomaly) then s ← getitem col anomaly; Some (F64.mean s)
  else Some F64.zero.

Definition loop_body (normal anomaly : DataFrame.t)
    (feature_diffs : dict) (col : string) : option dict :=
  if negb (String.eqb col "class") then
    normal_mean ← normal_mean_of normal col;
    anomaly_mean ← anomaly_mean_of anomaly col;
    diff ← relative_change normal_mean anomaly_mean;
    Some (dict_set col diff feature_diffs)
  else Some feature_diffs.

Fixpoint loop (normal anomaly : DataFrame.t)
    (cols : list string) (feature_diffs : dict) : option dict :=
  match cols with
  | [] => Some feature_diffs
  | col :: cols' =>
      d ← loop_body normal anomaly feature_diffs col;
      loop normal anomaly cols' d
  end.

(** The dict [feature_diffs] once the loop of cell 12 has run; [df] and
    [X] are the notebook's variables of these names. *)
Definition feature_diffs (df X : DataFrame.t) : option dict :=
  cls ← getitem "class" df;
  let anomaly := getrows (eq_scalar cls 1%Q) df in
  let normal := getrows (eq_scalar cls 0%Q) df in
  loop normal anomaly (columns X) [].

(** *** [sort_values('Relative Change', key=abs, ascending=False)] *)

Definition key (row : string * F64.t) : F64.t := F64.abs (snd row).

(** [r1] may stand before [r2] in the descending order. *)
Definition key_ge (r1 r2 : string * F64.t) : bool := F64.leb (key r2) (key r1).

(** The ranking the sorted frame obeys: a row whose key is NaN ranks
    below every row, two other rows rank by their keys. *)
Definition rank_ge (r1 r2 : string * F64.t) : Prop :=
  F64.is_nan (key r2) = true \/ key_ge r1 r2 = true.

(** The rows the sort proper works on: those whose key is a number. *)
Definition no_nan (r : string * F64.t) : Prop := F64.is_nan (key r) = false.

(** The sort is an insertion sort, descending and stable.  pandas hands the
    keys to numpy, which settles the order among rows of equal key; no
    property below depends on that order. *)
Fixpoint insert (r : string * F64.t) (l : dict) : dict :=
  match l with
  | [] => [r]
  | r' :: l' => if key_ge r r' then r :: r' :: l' else r' :: insert r l'
  end.

Fixpoint sort_desc (l : dict) : dict :=
  match l with
  | [] => []
  | r :: l' => insert r (sort_desc l')
  end.

(** pandas sorts the rows whose key is not NaN and puts the NaN rows
    after them, in their original order. *)
Definition sort_values (rows : dict) : dict :=
  sort_desc (List.filter (fun r => negb (F64.is_nan (key r))) rows)
  ++ List.filter (fun r => F64.is_nan (key r)) rows.

Definition feature_diff_df (df X : DataFrame.t) : option dict :=
  d ← feature_diffs df X; Some (sort_values d).

(** [frame.head(n)] *)
Definition head (n : nat) (rows : dict) : dict := firstn n rows.

(** The selection with the row count as a parameter. *)
Definition top_k (k : nat) (df X : DataFrame.t) : option (list string) :=
  fdf ← feature_diff_df df X; Some (map fst (head k fdf)).

(** Cell 13: [feature_diff_df.head(15)['Feature'].tolist()] *)
Definition top_features (df X : DataFrame.t) : option (list string) :=
  top_k 15 df X.

(** [X[names]]: the named columns, in the order of the list. *)
Fixpoint getcols (names : list string) (X : DataFrame.t)
    : option (list (string * Series)) :=
  match names with
  | [] => Some []
  | c :: names' =>
      s ← getitem c X;
      rest ← getcols names' X;
      Some ((c, s) :: rest)
  end.

Definition getitems (names : list string) (X : DataFrame.t) : option DataFrame.t :=
  cs ← getcols names X; Some (DataFrame.mk (nrows X) cs).

(** Cell 13 as a whole: [top_features] and [X_selected]. *)
Definition cell13 (df X : DataFrame.t) : option (list string * DataFrame.t) :=
  top ← top_features df X;
  X_selected ← getitems top X;
  Some (top, X_selected).

End FeatureSelector.

(** ** scikit-learn, as the notebook calls it *)

Module Sk.

Import DataFrame.

Definition row : Type := list Q.

Inductive kernel_t : Type := rbf | linear | poly.

Inductive gamma_t : Type := scale | auto | gamma_value (g : Q).

Record SVC : Type :=
  mkSVC { C : Q; gamma : gamma_t; kernel : kernel_t; probability : bool }.

(** [SVC()] *)
Definition SVC_default : SVC := mkSVC 1 scale rbf false.

(** An estimator is an SVC, inside a pipeline behind a [StandardScaler]
    when [scaler] is set. *)
Record estimator : Type := mkEstimator { scaler : bool; svm : SVC }.

Inductive scoring_t : Type := f1.

(** What the library computes.  The split draws its indices from the
    number of samples, the test fraction, the seed and the stratification
    labels; a fit or a split may raise ([None]). *)
Class Library : Type := {
  model : Type;
  shuffle_split : nat -> Q -> Z -> Series -> option (list nat * list nat);
  fit : estimator -> list row -> Series -> option model;
  predict_row : model -> row -> Q;
  cross_val_score : estimator -> nat -> scoring_t -> list row -> Series -> F64.t;
  StandardScaler_fit : list row -> row -> row;
  PCA_fit : nat -> list row -> option (row -> row)
}.

(** The split hands back every index once. *)
Class LibraryLaws (L : Library) : Prop := {
  shuffle_split_partition :
    forall n test_size seed stratify train test,
      shuffle_split n test_size seed stratify = Some (train, test) ->
      Permutation (train ++ test) (seq 0 n)
}.

Section Calls.

Context {L : Library}.

Definition predict (m : model) (X : list row) : list Q := map (predict_row m) X.

(** [a[idx]]; [None] is [IndexError]. *)
Definition take_rows {A} (idx : list nat) (a : list A) : option (list A) :=
  mapM (fun i => a !! i) idx.

Record split_t : Type := mkSplit {
  X_train : list row; X_test : list row;
  y_train : Series; y_test : Series
}.

(** [train_test_split(X, y, test_size=, random_state=, stratify=)] *)
Definition train_test_split (X : list row) (y : Series)
    (test_size : Q) (random_state : Z) (stratify : Series) : option split_t :=
  if negb (length X =? length y)%nat then None
  else
    idx ← shuffle_split (length X) test_size random_state stratify;
    Xtr ← take_rows (fst idx) X;
    Xte ← take_rows (snd idx) X;
    ytr ← take_rows (fst idx) y;
    yte ← take_rows (snd idx) y;
    Some (mkSplit Xtr Xte ytr yte).

Record params : Type :=
  mkParams { svm__C : Q; svm__gamma : gamma_t; svm__kernel : kernel_t }.

Record param_grid_t : Type := mkGrid {
  grid_C : list Q; grid_gamma : list gamma_t; grid_kernel : list kernel_t
}.

(** [ParameterGrid]: keys in sorted order, the last key varying fastest. *)
Definition ParameterGrid (g : param_grid_t) : list params :=
  flat_map (fun c =>
    flat_map (fun ga =>
      map (fun k => mkParams c ga k) (grid_kernel g)) (grid_gamma g)) (grid_C g).

(** A clone of the estimator with the candidate's parameters set. *)
Definition set_params (e : estimator) (p : params) : estimator :=
  mkEstimator (scaler e)
    (mkSVC (svm__C p) (svm__gamma p) (svm__kernel p) (probability (svm e))).

(** Score [b] beats score [a]: a NaN score beats nothing and is beaten by
    every number. *)
Definition beats (a b : F64.t) : bool :=
  negb (F64.is_nan b) && (F64.is_nan a || negb (F64.leb b a)).

(** Index of the best score, the first one among equals. *)
Fixpoint argmax_from (best_i : nat) (best : F64.t) (i : nat) (l : list F64.t) : nat :=
  match l with
  | [] => best_i
  | x :: l' =>
      if beats best x then argmax_from i x (S i) l'
      else argmax_from best_i best (S i) l'
  end.

Definition argmax (l : list F64.t) : option nat :=
  match l with
  | [] => None
  | x :: l' => Some (argmax_from 0 x 1 l')
  end.

Record search_t : Type := mkSearch {
  best_params_ : params; best_score_ : F64.t; best_estimator_ : model
}.

(** [GridSearchCV(estimator, param_grid, cv=, scoring=).fit(X, y)]: every
    candidate scored by cross-validation on [X], [y], the best one refitted
    on all of [X], [y]. *)
Definition GridSearchCV_fit (e : estimator) (g : param_grid_t)
    (cv : nat) (scoring : scoring_t) (X : list row) (y : Series) : option search_t :=
  let candidates := ParameterGrid g in
  let scores := map (fun p => cross_val_score (set_params e p) cv scoring X y) candidates in
  best_index ← argmax scores;
  p ← candidates !! best_index;
  sc ← scores !! best_index;
  m ← fit (set_params e p) X y;
  Some (mkSearch p sc m).

End Calls.

End Sk.

(** ** Cells 15, 17 and 18: split, search, predictions *)

Module Trainer.

Import DataFrame Sk.

Section Cells.

Context {L : Library}.

(** [train_test_split(X_selected, y, test_size=0.3, random_state=42,
    stratify=y)] *)
Definition cell15 (X_selected : DataFrame.t) (y : Series) : option split_t :=
  train_test_split (values X_selected) y (3 # 10) 42 y.

Definition pipeline : estimator :=
  mkEstimator true (mkSVC (C SVC_default) (gamma SVC_default) (kernel SVC_default) true).

Definition param_grid : param_grid_t :=
  mkGrid [1 # 10; 1; 10; 100]%Q
         [scale; auto; gamma_value (1 # 10); gamma_value (1 # 100)]
         [rbf; linear; poly].

Definition cell17 (sp : split_t) : option search_t :=
  GridSearchCV_fit pipeline param_grid 5 f1 (X_train sp) (y_train sp).

(** [y_pred = best_model.predict(X_test)] *)
Definition cell18 (gs : search_t) (sp : split_t) : list Q :=
  predict (best_estimator_ gs) (X_test sp).

End Cells.

End Trainer.

(** ** Cell 20: [sklearn.metrics] *)

Module Metrics.

Import DataFrame.

Inductive warning : Type :=
| UndefinedMetricWarning (metric : string).

Definition is_pos (v : Q) : bool := Qeq_bool v 1.

(** Labels that occur, each once. *)
Fixpoint unique_labels (l : list Q) : list Q :=
  match l with
  | [] => []
  | x :: l' =>
      if existsb (Qeq_bool x) l' then unique_labels l' else x :: unique_labels l'
  end.

(** [average='binary'] with [pos_label=1]: at most two labels, and label 1
    among them when there are two. *)
Definition binary_target (y_true y_pred : Series) : bool :=
  let present := unique_labels (y_true ++ y_pred) in
  (length present <=? 2)%nat
  && (existsb is_pos present || (length present <? 2)%nat).

Definition count_pairs (f : Q -> Q -> bool) (y_true y_pred : Series) : nat :=
  length (List.filter (fun tp => f (fst tp) (snd tp)) (combine y_true y_pred)).

(** A ratio with [zero_division="warn"]: on a zero denominator the value
    is 0.0 and a warning is issued. *)
Definition prf_divide (metric : string) (num den : nat) : F64.t * list warning :=
  if (den =? 0)%nat then (F64.zero, [UndefinedMetricWarning metric])
  else (F64.Fin (inject_Z (Z.of_nat num) / inject_Z (Z.of_nat den))%Q, []).

Record prf_t : Type := mkPrf {
  precision : F64.t; recall : F64.t; fscore : F64.t; warnings : list warning
}.

(** [precision_recall_fscore_support(y_true, y_pred, average='binary')];
    [None] is [ValueError]. *)
Definition precision_recall_fscore_support (y_true y_pred : Series) : option prf_t :=
  if negb (length y_true =? length y_pred)%nat then None
  else if negb (binary_target y_true y_pred) then None
  else
    let tp_sum := count_pairs (fun t p => is_pos t && is_pos p) y_true y_pred in
    let pred_sum := count_pairs (fun t p => is_pos p) y_true y_pred in
    let true_sum := count_pairs (fun t p => is_pos t) y_true y_pred in
    let p := prf_divide "Precision" tp_sum pred_sum in
    let r := prf_divide "Recall" tp_sum true_sum in
    let f := prf_divide "F-score" (2 * tp_sum) (true_sum + pred_sum) in
    Some (mkPrf (fst p) (fst r) (fst f) (snd p ++ snd r ++ snd f)).

(** [accuracy_score(y_true, y_pred)] *)
Definition accuracy_score (y_true y_pred : Series) : option F64.t :=
  if negb (length y_true =? length y_pred)%nat then None
  else Some (F64.mean (map (fun tp => if Qeq_bool (fst tp) (snd tp) then 1%Q else 0%Q)
                           (combine y_true y_pred))).

Record metrics_t : Type := mkMetrics {
  accuracy : F64.t; m_precision : F64.t; m_recall : F64.t; m_f1 : F64.t
}.

End Metrics.

(** ** The interpreter state the cells act on *)

Module Notebook.

Record world : Type := mkWorld {
  fs : gmap string string;            (* files of the working directory *)
  stdout : list string;               (* lines printed so far *)
  ignore_warnings : bool;             (* warnings.filterwarnings('ignore') is in force *)
  shown_warnings : list Metrics.warning
}.

(** A cell may raise, which halts the run: [None]. *)
Definition M (A : Type) : Type := world -> option (A * world).

Definition ret {A} (a : A) : M A := fun w => Some (a, w).

Definition bind {A B} (m : M A) (k : A -> M B) : M B :=
  fun w => match m w with
           | Some (a, w') => k a w'
           | None => None
           end.

Definition lift {A} (o : option A) : M A :=
  fun w => match o with
           | Some a => Some (a, w)
           | None => None
           end.

Definition print (line : string) : M unit :=
  fun w => Some (tt, mkWorld (fs w) (stdout w ++ [line]) (ignore_warnings w) (shown_warnings w)).

Definition filterwarnings_ignore : M unit :=
  fun w => Some (tt, mkWorld (fs w) (stdout w) true (shown_warnings w)).

Definition warn (ws : list Metrics.warning) : M unit :=
  fun w => Some (tt, if ignore_warnings w then w
                     else mkWorld (fs w) (stdout w) (ignore_warnings w) (shown_warnings w ++ ws)).

Definition write_file (path content : string) : M unit :=
  fun w => Some (tt, mkWorld (<[path := content]> (fs w)) (stdout w)
                             (ignore_warnings w) (shown_warnings w)).

(** [None] is [FileNotFoundError]. *)
Definition read_file (path : string) : M string :=
  fun w => match fs w !! path with
           | Some content => Some (content, w)
           | None => None
           end.

(** ** Comparing two runs *)

(** Two interpreter states that differ in what was printed at most. *)
Definition sim (w1 w2 : world) : Prop :=
  fs w1 = fs w2
  /\ ignore_warnings w1 = ignore_warnings w2
  /\ shown_warnings w1 = shown_warnings w2.

(** Whenever [m1] returns, [m2] returns the same value, from any state
    that differs in the printed lines only. *)
Definition follows {A} (m1 m2 : M A) : Prop :=
  forall w1 w2, sim w1 w2 ->
  forall a w1', m1 w1 = Some (a, w1') ->
  exists w2', m2 w2 = Some (a, w2') /\ sim w1' w2'.

End Notebook.

#[global] Instance M_ret : MRet Notebook.M := @Notebook.ret.
#[global] Instance M_bind : MBind Notebook.M := fun A B k m => Notebook.bind m k.

(** ** Cell 2: imports, explainability flag, warning filter *)

Module Imports.

Import Notebook.

(** [import_ok]: whether [import shap], [import lime] and
    [import lime.lime_tabular] all succeed. *)
Definition cell2 (import_ok : bool) : M bool :=
  EXPLAINABILITY_AVAILABLE ←
    (if import_ok then ret true
     else
       print "Warning: SHAP and/or LIME libraries not installed. Explainability sections will be skipped.";;
       print "Run 'pip install shap lime' to install them.";;
       ret false);
  filterwarnings_ignore;;
  ret EXPLAINABILITY_AVAILABLE.

End Imports.

(** ** Cell 20: evaluation on the held-out split *)

Module Evaluator.

Import DataFrame Notebook Metrics.

Definition cell20 (y_test y_pred : Series) : M metrics_t :=
  accuracy ← lift (accuracy_score y_test y_pred);
  prf ← lift (precision_recall_fscore_support y_test y_pred);
  warn (warnings prf);;
  print "
Classification Report:";;
  ret (mkMetrics accuracy (precision prf) (recall prf) (fscore prf)).

End Evaluator.

(** ** Cells 25 and 26: the two-dimensional model for the picture *)

Module Visualisation.

Import DataFrame Sk.

Section Cells.

Context {L : Library}.

(** [X_pca]: the selected features scaled, then projected on two
    components, both fitted on every row. *)
Definition cell25 (X_selected : DataFrame.t) : option (list row) :=
  let X := values X_selected in
  let X_scaled := map (StandardScaler_fit X) X in
  project ← PCA_fit 2 X_scaled;
  Some (map project X_scaled).

Definition adapt_gamma (g : gamma_t) : gamma_t :=
  match g with
  | gamma_value v => gamma_value v
  | scale | auto => scale
  end.

Definition svm_2d_estimator (best_params : params) : estimator :=
  mkEstimator false
    (mkSVC (svm__C best_params) (adapt_gamma (svm__gamma best_params))
           (svm__kernel best_params) true).

(** The split is called as in cell 15, on [X_pca] in place of
    [X_selected]; the model is an SVC without scaler. *)
Definition cell26 (X_pca : list row) (y : Series) (best_params : params)
    : option (split_t * model) :=
  sp ← train_test_split X_pca y (3 # 10) 42 y;
  svm_2d ← fit (svm_2d_estimator best_params) (X_train sp) (y_train sp);
  Some (sp, svm_2d).

End Cells.

End Visualisation.

(** ** Cells 32 and 34: SHAP and LIME, when they are installed *)

Module Explainer.

Import DataFrame Sk Notebook.

(** What SHAP and LIME compute; each call may raise. *)
Class Explainability (model : Type) : Type := {
  shap_explain : model -> list row -> list row -> option unit;
  lime_explainer : Type;
  LimeTabularExplainer : list row -> list string -> option lime_explainer;
  explain_instance : lime_explainer -> row -> model -> nat -> option unit
}.

Section Cells.

Context {L : Library} {E : Explainability model}.

Definition shap_estimator : estimator :=
  mkEstimator true (mkSVC (C SVC_default) (gamma SVC_default) linear true).

Definition cell32 (EXPLAINABILITY_AVAILABLE : bool) (sp : split_t) : M unit :=
  if EXPLAINABILITY_AVAILABLE then
    shap_model ← lift (fit shap_estimator (X_train sp) (y_train sp));
    lift (shap_explain shap_model (X_train sp) (X_test sp))
  else print "SHAP analysis skipped because libraries are not installed.".

(** [np.where(y_test == 1)[0]] *)
Fixpoint where_eq (v : Q) (i : nat) (y : Series) : list nat :=
  match y with
  | [] => []
  | x :: y' => if Qeq_bool x v then i :: where_eq v (S i) y' else where_eq v (S i) y'
  end.

Definition cell34 (EXPLAINABILITY_AVAILABLE : bool) (sp : split_t)
    (feature_names : list string) (best_model : model) : M unit :=
  if EXPLAINABILITY_AVAILABLE then
    explainer ← lift (LimeTabularExplainer (X_train sp) feature_names);
    match where_eq 1 0 (y_test sp) with
    | anomaly_idx :: _ =>
        anomaly_instance ← lift (X_test sp !! anomaly_idx);
        lift (explain_instance explainer anomaly_instance best_model 10)
    | [] => print "No anomalies found in test set"
    end
  else print "LIME analysis skipped because libraries are not installed.".

End Cells.

End Explainer.

(** ** Cells 36 and 38: saving and loading *)

Module Persister.

Import Notebook.

(** joblib's pickling and pandas' CSV text, as codecs. *)
Class Persistence (model : Type) : Type := {
  joblib_dumps : model -> string;
  joblib_loads : string -> option model;
  to_csv : string -> list string -> string;
  read_csv : string -> option (list (string * list string))
}.

(** What the two libraries promise: what was written reads back. *)
Class PersistenceLaws {model : Type} (P : Persistence model) : Prop := {
  joblib_roundtrip : forall m, joblib_loads (joblib_dumps m) = Some m;
  csv_roundtrip : forall col names, read_csv (to_csv col names) = Some [(col, names)]
}.

Fixpoint column {A} (col : string) (frame : list (string * A)) : option A :=
  match frame with
  | [] => None
  | (c, v) :: frame' => if String.eqb c col then Some v else column col frame'
  end.

(** The two files of cells 36 and 38. *)
Definition model_path : string := "svm_nimda_1min_model.pkl".
Definition features_path : string := "nimda_1_bgp_anomaly_selected_features.csv".

Section Cells.

Context {model : Type} {P : Persistence model}.

Definition cell36 (best_model : model) (top_features : list string) : M unit :=
  write_file "svm_nimda_1min_model.pkl" (joblib_dumps best_model);;
  print "Model saved to 'bgp_anomaly_svm_model.pkl'";;
  write_file "nimda_1_bgp_anomaly_selected_features.csv" (to_csv "Feature" top_features);;
  print "Selected features saved to 'bgp_anomaly_selected_features.csv'".

Definition cell38 : M (model * list string) :=
  pkl ← read_file "svm_nimda_1min_model.pkl";
  loaded_model ← lift (joblib_loads pkl);
  csv ← read_file "nimda_1_bgp_anomaly_selected_features.csv";
  frame ← lift (read_csv csv);
  selected_features ← lift (column "Feature" frame);
  print "Model and feature list loaded successfully.";;
  ret (loaded_model, selected_features).

End Cells.

End Persister.

(** ** The notebook, run from top to bottom *)

Module Run.

Import DataFrame Sk Notebook.

Section Script.

Context {L : Library} {E : Explainer.Explainability model}
        {P : Persister.Persistence model}.

(** The variables later cells or a later session rely on. *)
Record outcome : Type := mkOutcome {
  top_features : list string;
  X_selected : DataFrame.t;
  split : split_t;
  search : search_t;
  y_pred : Series;
  metrics : Metrics.metrics_t;
  X_pca : list row;
  split_pca : split_t;
  svm_2d : model;
  loaded_model : model;
  selected_features : list string
}.

(** Cell 30: [Pipeline([scaler, SVC(kernel='linear')])] *)
Definition linear_estimator : estimator :=
  mkEstimator true
    (mkSVC (C SVC_default) (gamma SVC_default) linear (probability SVC_default)).

(** [raw] is the table of cell 4 with its missing values filled (cell 8).
    Of what the cells print, the lines with a fixed text are recorded;
    rendered data and figures are left out. *)
Definition cells_4_to_38 (EXPLAINABILITY_AVAILABLE : bool) (raw : DataFrame.t)
    : M outcome :=
  print "Missing values in each column:";;
  print "Class distribution:";;
  '(df, X, y) ← lift (Prepare.cell10 raw);
  print "Feature names:";;
  '(top_features, X_selected) ← lift (FeatureSelector.cell13 df X);
  print "Selected top features:";;
  sp ← lift (Trainer.cell15 X_selected y);
  gs ← lift (Trainer.cell17 sp);
  print "Best parameters found:";;
  let y_pred := Trainer.cell18 gs sp in
  metrics ← Evaluator.cell20 (y_test sp) y_pred;
  X_pca ← lift (Visualisation.cell25 X_selected);
  '(sp_pca, svm_2d) ← lift (Visualisation.cell26 X_pca y (best_params_ gs));
  _ ← lift (getitem "timestamp" raw);
  _ ← lift (fit linear_estimator (X_train sp) (y_train sp));
  Explainer.cell32 EXPLAINABILITY_AVAILABLE sp;;
  Explainer.cell34 EXPLAINABILITY_AVAILABLE sp (columns X_selected) (best_estimator_ gs);;
  Persister.cell36 (best_estimator_ gs) top_features;;
  '(loaded_model, selected_features) ← Persister.cell38;
  mret (mkOutcome top_features X_selected sp gs y_pred metrics X_pca sp_pca svm_2d
                  loaded_model selected_features).

(** Run All: cell 2 settles whether the explainability libraries are
    there, the other cells follow. *)
Definition run_all (import_ok : bool) (raw : DataFrame.t) : M outcome :=
  EXPLAINABILITY_AVAILABLE ← Imports.cell2 import_ok;
  cells_4_to_38 EXPLAINABILITY_AVAILABLE raw.

End Script.

End Run.

(** ** A small instance of the libraries, to run the notebook on *)

Module Toy.

Import DataFrame Sk.

(** The first [ceil(test_size * n)] indices are the test set. *)
Definition toy_split (n : nat) (test_size : Q) (seed : Z) (stratify : Series)
    : option (list nat * list nat) :=
  let n_test := Z.to_nat (Qceiling (test_size * inject_Z (Z.of_nat n))) in
  if (n_test <? n)%nat then Some (seq n_test (n - n_test), seq 0 n_test) else None.

(** A fitted model remembers how many rows it saw and flags a row whose
    first feature reaches 2. *)
Definition toy_predict (m : nat) (r : row) : Q :=
  match r with
  | x :: _ => if Qle_bool 2 x then 1%Q else 0%Q
  | [] => 0%Q
  end.

Definition toy_score (e : estimator) (cv : nat) (sc : scoring_t)
    (X : list row) (y : Series) : F64.t :=
  match kernel (svm e) with
  | linear => F64.Fin (C (svm e) / 100)%Q
  | rbf => F64.Fin (1 # 2)
  | poly => F64.NaN
  end.

#[export] Instance library : Library := {
  model := nat;
  shuffle_split := toy_split;
  fit := fun e X y => Some (length X);
  predict_row := toy_predict;
  cross_val_score := toy_score;
  StandardScaler_fit := fun X r => r;
  PCA_fit := fun n X => Some (firstn n)
}.

#[export] Instance explainability : Explainer.Explainability nat := {
  shap_explain := fun m Xtr Xte => Some tt;
  lime_explainer := unit;
  LimeTabularExplainer := fun X names => Some tt;
  explain_instance := fun ex r m n => Some tt
}.

(** Explainability libraries whose every call raises. *)
Definition broken_explainability : Explainer.Explainability nat := {|
  Explainer.shap_explain := fun m Xtr Xte => None;
  Explainer.lime_explainer := unit;
  Explainer.LimeTabularExplainer := fun X names => None;
  Explainer.explain_instance := fun ex r m n => None
|}.

(** A text codec: every character of a field is preceded by "+", the field
    is closed by "."; a frame is its column name followed by its values. *)
Fixpoint enc_field (s : string) : string :=
  match s with
  | EmptyString => "."
  | String c s' => String "+"%char (String c (enc_field s'))
  end.

Fixpoint enc_fields (l : list string) : string :=
  match l with
  | [] => ""
  | f :: l' => enc_field f ++ enc_fields l'
  end.

Fixpoint dec_fields (fuel : nat) (cur : string) (s : string) : option (list string) :=
  match fuel with
  | O => None
  | S fuel' =>
      match s with
      | EmptyString => if String.eqb cur "" then Some [] else None
      | String "."%char s' =>
          rest ← dec_fields fuel' "" s'; Some (cur :: rest)
      | String "+"%char (String c s') => dec_fields fuel' (cur ++ String c "") s'
      | _ => None
      end
  end.

Definition toy_read_csv (s : string) : option (list (string * list string)) :=
  fields ← dec_fields (S (String.length s)) "" s;
  match fields with
  | col :: names => Some [(col, names)]
  | [] => None
  end.

(** Fuel the decoder spends on a list of fields. *)
Fixpoint steps (l : list string) : nat :=
  match l with
  | [] => 0
  | f :: l' => S (String.length f) + steps l'
  end.

Fixpoint unary (n : nat) : string :=
  match n with
  | O => ""
  | S n' => String "m"%char (unary n')
  end.

#[export] Instance persistence : Persister.Persistence nat := {
  joblib_dumps := unary;
  joblib_loads := fun s => Some (String.length s);
  to_csv := fun col names => enc_fields (col :: names);
  read_csv := toy_read_csv
}.

Definition world0 : Notebook.world := Notebook.mkWorld ∅ [] false [].

End Toy.

(** ** A four-row table and what the notebook makes of it *)

Module Sample.

Import DataFrame Sk.
Local Open Scope Q_scope.

Definition raw1 : DataFrame.t :=
  DataFrame.mk 4
    [ ("timestamp", [10; 20; 30; 40]);
      ("a", [1; 1; 2; 4]);
      ("b", [0; 0; 3; 3]);
      ("c", [5; 5; 5; 5]);
      ("z", [0; 0; 0; 0]);
      ("class", [0; 0; 1; 1]) ].

Definition df1 : DataFrame.t := DataFrame.mk 4 (List.tl (DataFrame.cols raw1)).

Definition X1 : DataFrame.t :=
  DataFrame.mk 4
    [ ("a", [1; 1; 2; 4]);
      ("b", [0; 0; 3; 3]);
      ("c", [5; 5; 5; 5]);
      ("z", [0; 0; 0; 0]) ].

Definition cls1 : Series := [0; 0; 1; 1].

Definition world1 : Notebook.world :=
  Notebook.mkWorld ∅ ["output of an earlier run"] false [].

Definition split1 : split_t :=
  mkSplit [[2; 3; 5; 0]; [4; 3; 5; 0]] [[1; 0; 5; 0]; [1; 0; 5; 0]] [1; 1] [0; 0].

Definition search1 : search_t (L := Toy.library) :=
  mkSearch (L := Toy.library) (mkParams 100 scale linear) (F64.Fin (100 / 100)) 2%nat.

Definition X_pca1 : list row := [[1; 0]; [1; 0]; [2; 3]; [4; 3]].

Definition split_pca1 : split_t :=
  mkSplit [[2; 3]; [4; 3]] [[1; 0]; [1; 0]] [1; 1] [0; 0].

End Sample.

(** ** The selector as section 4.2 of the specification words it *)

Module Spec.

Import DataFrame.

(** Mean of a column over the rows labelled normal. *)
Definition mean_normal (cls s : Series) : F64.t :=
  F64.mean (select (eq_scalar cls 0%Q) s).

(** Mean of a column over the rows labelled anomaly; "if the anomaly
    subset is empty, mean_anomaly defaults to 0 for all columns". *)
Definition mean_anomaly (cls s : Series) : F64.t :=
  if existsb (fun c => Qeq_bool c 1%Q) cls
  then F64.mean (select (eq_scalar cls 1%Q) s)
  else F64.zero.

(** "relative_shift = (mean_anomaly - mean_normal) / mean_normal", 0 when
    both means are 0, unbounded when only the normal one is 0.  A mean
    that is not a number leaves the shift undefined. *)
Definition relative_shift (mean_normal mean_anomaly : F64.t) : F64.t :=
  match mean_normal, mean_anomaly with
  | F64.Fin n, F64.Fin a =>
      if Qeq_bool n 0%Q then
        if Qeq_bool a 0%Q then F64.Fin 0%Q else F64.PInf
      else F64.Fin ((a - n) / n)%Q
  | _, _ => F64.NaN
  end.

Definition shift_of (cls s : Series) : F64.t :=
  relative_shift (mean_normal cls s) (mean_anomaly cls s).

End Spec.

(** ** The evaluator scenario of section 8 of the specification *)

Module SpecEvaluator.

Import Notebook Metrics.

(** "a test split with zero anomaly rows" *)
Definition zero_anomaly_rows (y_test : DataFrame.Series) : Prop :=
  existsb is_pos y_test = false.

(** "report precision/recall as explicitly undefined (not silently 0 or
    1)": the two values are not numbers, or the reader is shown a warning. *)
Definition explicitly_undefined (m : metrics_t) (before after : world) : Prop :=
  (F64.is_nan (m_precision m) = true /\ F64.is_nan (m_recall m) = true)
  \/ shown_warnings after <> shown_warnings before.

(** The scenario, for cell 20 run in the state cell 2 leaves. *)
Definition zero_anomaly_reported_undefined : Prop :=
  forall import_ok w0 flag w y_test y_pred m w',
    Imports.cell2 import_ok w0 = Some (flag, w) ->
    zero_anomaly_rows y_test ->
    Evaluator.cell20 y_test y_pred w = Some (m, w') ->
    explicitly_undefined m w w'.

End SpecEvaluator.

(** ** Notions the further properties are stated with *)

Module Notions.

Import DataFrame Notebook.

(** Cell 10 keeps a column when its name is none of [columns_to_drop]. *)
Definition kept (cs : string * Series) : bool :=
  negb (existsb (String.eqb (fst cs)) Prepare.columns_to_drop).

(** A feature column: kept, and not the label. *)
Definition feature (cs : string * Series) : bool :=
  kept cs && negb (String.eqb (fst cs) "class").

(** The mask of the rows whose label is 0 or 1. *)
Definition labelled (cls : Series) : list bool :=
  map (fun c => Qeq_bool c 0 || Qeq_bool c 1) cls.

(** The warning filter is in force. *)
Definition quiet (w : world) : Prop := ignore_warnings w = true.

(** From two states with the filter in force, [m] raises in both or
    returns the same value in both, whatever the files and the lines
    printed before. *)
Definition oblivious {A} (m : M A) : Prop :=
  forall w1 w2, quiet w1 -> quiet w2 ->
  match m w1, m w2 with
  | Some (a1, w1'), Some (a2, w2') => a1 = a2 /\ quiet w1' /\ quiet w2'
  | None, None => True
  | _, _ => False
  end.

End Notions.

(** ** Further tables: one label only, a third label, an anomaly held out *)

Module Tables.

Import DataFrame Sk.
Local Open Scope Q_scope.

Definition features_only : DataFrame.t :=
  DataFrame.mk 3 [ ("a", [1; 2; 3]); ("z", [0; 0; 0]) ].

Definition normal_only : DataFrame.t :=
  DataFrame.mk 3 [ ("a", [1; 2; 3]); ("z", [0; 0; 0]); ("class", [0; 0; 0]) ].

Definition anomaly_only : DataFrame.t :=
  DataFrame.mk 3 [ ("a", [1; 2; 3]); ("z", [0; 0; 0]); ("class", [1; 1; 1]) ].

Definition third_label : DataFrame.t :=
  DataFrame.mk 5
    [ ("a", [1; 1; 9; 2; 4]);
      ("b", [0; 0; 7; 3; 3]);
      ("class", [0; 0; 2; 1; 1]) ].

Definition third_label_X : DataFrame.t :=
  DataFrame.mk 5 [ ("a", [1; 1; 9; 2; 4]); ("b", [0; 0; 7; 3; 3]) ].

Definition anomaly_first_X : DataFrame.t :=
  DataFrame.mk 4 [ ("a", [1; 4; 1; 2]); ("b", [0; 3; 0; 3]) ].

Definition anomaly_first_cls : Series := [0; 1; 0; 1].

Definition anomaly_first_split : split_t :=
  mkSplit [[1; 0]; [2; 3]] [[1; 0]; [4; 3]] [0; 1] [0; 1].

End Tables.

(** * Properties *)

(** ** Order facts on the idealised floats *)

Module F64Facts.

Import F64.

Lemma leb_refl x : is_nan x = false -> leb x x = true.
Proof.
  destruct x; simpl; try easy.
  intros _. apply Qle_bool_iff, Qle_refl.
Qed.

Lemma leb_trans x y z : leb x y = true -> leb y z = true -> leb x z = true.
Proof.
  destruct x, y, z; simpl; try easy.
  rewrite !Qle_bool_iff. apply Qle_trans.
Qed.

Lemma leb_total x y :
  is_nan x = false -> is_nan y = false -> leb x y = true \/ leb y x = true.
Proof.
  destruct x as [a| | |], y as [b| | |]; simpl; try easy; auto.
  intros _ _. rewrite !Qle_bool_iff.
  destruct (Qlt_le_dec a b) as [Hlt|Hle]; [left; apply Qlt_le_weak, Hlt | right; exact Hle].
Qed.

Lemma leb_not_nan x y : leb x y = true -> is_nan x = false /\ is_nan y = false.
Proof. destruct x, y; simpl; easy. Qed.

Lemma abs_nan x : is_nan (abs x) = is_nan x.
Proof. now destruct x. Qed.

Lemma leb_abs_PInf x : is_nan x = false -> leb (abs x) PInf = true.
Proof. now destruct x. Qed.

Lemma leb_PInf_Fin q : leb PInf (Fin q) = false.
Proof. reflexivity. Qed.

Lemma eqb_zero_Fin q : eqb (Fin q) zero = Qeq_bool q 0.
Proof. reflexivity. Qed.

Lemma mean_finite l : l <> [] -> exists q, mean l = Fin q.
Proof. destruct l; [easy | eauto]. Qed.

End F64Facts.

(** ** The descending sort *)

Module SortFacts.

Import FeatureSelector.

Lemma StronglySorted_app {A} (R : A -> A -> Prop) (l1 l2 : list A) :
  StronglySorted R l1 -> StronglySorted R l2 ->
  (forall x y, In x l1 -> In y l2 -> R x y) ->
  StronglySorted R (l1 ++ l2).
Proof.
  induction l1 as [|a l1 IH]; simpl; intros H1 H2 H12; [exact H2|].
  apply StronglySorted_inv in H1 as [H1 Ha].
  constructor.
  - apply IH; [exact H1 | exact H2 |].
    intros x y Hx Hy. apply H12; [now right | exact Hy].
  - apply List.Forall_app. split; [exact Ha|].
    apply List.Forall_forall. intros y Hy. apply H12; [now left | exact Hy].
Qed.

Lemma StronglySorted_impl {A} (R S : A -> A -> Prop) (l : list A) :
  (forall x y, R x y -> S x y) -> StronglySorted R l -> StronglySorted S l.
Proof.
  intros HRS Hs. induction Hs as [|a l Hs IH Ha]; constructor; [exact IH|].
  eapply List.Forall_impl; [|exact Ha]. intros b. apply HRS.
Qed.

Lemma insert_perm r l : Permutation (insert r l) (r :: l).
Proof.
  induction l as [|r' l IH]; simpl; [reflexivity|].
  destruct (key_ge r r'); [reflexivity|].
  rewrite IH. apply perm_swap.
Qed.

Lemma sort_desc_perm l : Permutation (sort_desc l) l.
Proof.
  induction l as [|r l IH]; simpl; [reflexivity|].
  rewrite insert_perm. now constructor.
Qed.

Lemma filter_split_perm {A} (f : A -> bool) (l : list A) :
  Permutation (List.filter (fun x => negb (f x)) l ++ List.filter f l) l.
Proof.
  induction l as [|a l IH]; simpl; [reflexivity|].
  destruct (f a); simpl.
  - symmetry. apply Permutation_cons_app. now symmetry.
  - now constructor.
Qed.

Lemma sort_values_perm rows : Permutation (sort_values rows) rows.
Proof.
  unfold sort_values. rewrite sort_desc_perm.
  apply (filter_split_perm (fun r => F64.is_nan (key r))).
Qed.

Lemma sort_values_length rows : length (sort_values rows) = length rows.
Proof. apply Permutation_length, sort_values_perm. Qed.

Lemma key_ge_total r1 r2 :
  no_nan r1 -> no_nan r2 -> key_ge r1 r2 = true \/ key_ge r2 r1 = true.
Proof. intros H1 H2. unfold key_ge. now apply F64Facts.leb_total. Qed.

Lemma key_ge_trans r1 r2 r3 :
  key_ge r1 r2 = true -> key_ge r2 r3 = true -> key_ge r1 r3 = true.
Proof. unfold key_ge. intros H12 H23. eapply F64Facts.leb_trans; eauto. Qed.

Lemma insert_sorted r l :
  no_nan r -> Forall no_nan l ->
  StronglySorted (fun a b => key_ge a b = true) l ->
  StronglySorted (fun a b => key_ge a b = true) (insert r l).
Proof.
  intros Hr Hl Hs. induction Hs as [|r' l Hs IH Hall]; simpl.
  - repeat constructor.
  - apply List.Forall_cons_iff in Hl as [Hr' Hl].
    destruct (key_ge r r') eqn:E.
    + constructor; [now constructor|].
      constructor; [exact E|].
      eapply List.Forall_impl; [|exact Hall].
      intros b Hb. eapply key_ge_trans; eauto.
    + constructor; [now apply IH|].
      destruct (key_ge_total r r' Hr Hr') as [H|H]; [congruence|].
      eapply Permutation_Forall; [symmetry; apply insert_perm|].
      now constructor.
Qed.

Lemma sort_desc_sorted l :
  Forall no_nan l -> StronglySorted (fun a b => key_ge a b = true) (sort_desc l).
Proof.
  induction l as [|r l IH]; simpl; intros H; [constructor|].
  apply List.Forall_cons_iff in H as [Hr Hl].
  apply insert_sorted; auto.
  eapply Permutation_Forall; [symmetry; apply sort_desc_perm | exact Hl].
Qed.

(** The sorted frame is ranked: keys descend, NaN keys come last. *)
Lemma sort_values_sorted rows : StronglySorted rank_ge (sort_values rows).
Proof.
  unfold sort_values. apply StronglySorted_app.
  - eapply StronglySorted_impl; [| apply sort_desc_sorted].
    + intros a b H. right. exact H.
    + apply List.Forall_forall. intros r Hr.
      apply List.filter_In in Hr as [_ Hr]. unfold no_nan.
      now destruct (F64.is_nan (key r)).
  - induction rows as [|r rows IH]; simpl; [constructor|].
    destruct (F64.is_nan (key r)) eqn:E; [|exact IH].
    constructor; [exact IH|].
    apply List.Forall_forall. intros r' Hr'.
    apply List.filter_In in Hr' as [_ Hr']. now left.
  - intros x y _ Hy. apply List.filter_In in Hy as [_ Hy]. now left.
Qed.

(** In a ranked frame no finite shift stands before an unbounded one. *)
Lemma ranked_inf_first (l : list (string * F64.t)) (i j : nat) ci cj q :
  StronglySorted rank_ge l ->
  l !! i = Some (ci, F64.Fin q) -> l !! j = Some (cj, F64.PInf) ->
  (j < i)%nat.
Proof.
  intros Hs. revert i j. induction Hs as [|r l Hs IH Hall]; intros i j Hi Hj.
  - destruct i; discriminate.
  - destruct i as [|i], j as [|j]; simpl in *.
    + congruence.
    + exfalso. injection Hi as ->.
      apply list_elem_of_lookup_2, list_elem_of_In in Hj.
      rewrite List.Forall_forall in Hall. now destruct (Hall _ Hj).
    + lia.
    + apply -> Nat.succ_lt_mono. eauto.
Qed.

End SortFacts.

(** ** Frames *)

Module FrameFacts.

Import DataFrame.

Lemma lookup_col_In c s (l : list (string * Series)) :
  NoDup (map fst l) -> In (c, s) l -> lookup_col c l = Some s.
Proof.
  induction l as [|[c' s'] l IH]; simpl; [easy|].
  intros Hnd [Heq|Hin].
  - injection Heq as -> ->. now rewrite String.eqb_refl.
  - apply NoDup_cons in Hnd as [Hc' Hnd].
    destruct (String.eqb_spec c' c) as [->|_]; [|auto].
    exfalso. apply Hc', list_elem_of_In.
    change c with (fst (c, s)). now apply in_map.
Qed.

Lemma lookup_col_Some c s (l : list (string * Series)) :
  lookup_col c l = Some s -> In (c, s) l.
Proof.
  induction l as [|[c' s'] l IH]; simpl; [easy|].
  destruct (String.eqb_spec c' c) as [->|_].
  - intros [= ->]. now left.
  - auto.
Qed.

Lemma lookup_col_map (f : Series -> Series) c (l : list (string * Series)) :
  lookup_col c (map (fun cs => (fst cs, f (snd cs))) l) = f <$> lookup_col c l.
Proof.
  induction l as [|[c' s'] l IH]; simpl; [reflexivity|].
  now destruct (String.eqb c' c).
Qed.

Lemma getitem_getrows mask c df :
  getitem c (getrows mask df) = select mask <$> getitem c df.
Proof. apply lookup_col_map. Qed.

Lemma drop_Some c df X :
  drop c df = Some X ->
  nrows X = nrows df
  /\ cols X = List.filter (fun cs => negb (String.eqb (fst cs) c)) (cols df).
Proof.
  unfold drop. destruct (getitem c df); [|easy]. now intros [= <-].
Qed.

Lemma drop_In c df X col s :
  drop c df = Some X -> In (col, s) (cols X) <-> In (col, s) (cols df) /\ col <> c.
Proof.
  intros H. apply drop_Some in H as [_ ->].
  rewrite List.filter_In. simpl.
  destruct (String.eqb_spec col c) as [->|Hne]; simpl; split.
  - now intros [_ ?].
  - now intros [_ ?].
  - now intros [? _].
  - now intros [? _].
Qed.

Lemma NoDup_map_filter {A B} (f : A -> B) (p : A -> bool) (l : list A) :
  NoDup (map f l) -> NoDup (map f (List.filter p l)).
Proof.
  induction l as [|a l IH]; simpl; [easy|].
  intros Hnd. apply NoDup_cons in Hnd as [Ha Hnd].
  destruct (p a); simpl; [|auto].
  apply NoDup_cons. split; [|auto].
  intros Hin. apply Ha.
  apply list_elem_of_In in Hin. apply list_elem_of_In.
  apply in_map_iff in Hin as (x & Hx & Hin).
  apply List.filter_In in Hin as [Hin _].
  apply in_map_iff. eauto.
Qed.

Lemma drop_NoDup c df X :
  drop c df = Some X -> NoDup (columns df) -> NoDup (columns X).
Proof.
  intros H. apply drop_Some in H as [_ HX]. unfold columns. rewrite HX.
  apply NoDup_map_filter.
Qed.

Lemma length_select mask (s : Series) :
  length mask = length s -> length (select mask s) = count_true mask.
Proof.
  revert s. induction mask as [|b mask IH]; intros [|x s]; simpl; try easy.
  intros [= Hlen]. unfold count_true in *. simpl.
  destruct b; simpl; auto.
Qed.

Lemma count_true_eq_scalar cls v :
  (count_true (eq_scalar cls v) =? 0)%nat
  = negb (existsb (fun c => Qeq_bool c v) cls).
Proof.
  unfold count_true, eq_scalar.
  induction cls as [|c cls IH]; simpl; [reflexivity|].
  destruct (Qeq_bool c v); simpl; [reflexivity | exact IH].
Qed.

Lemma length_eq_scalar cls v : length (eq_scalar cls v) = length cls.
Proof. apply length_map. Qed.

End FrameFacts.

(** ** The loop of cell 12 *)

Module SelectorFacts.

Import DataFrame FeatureSelector.

Lemma dict_set_fresh k v (d : dict) :
  ~ In k (map fst d) -> dict_set k v d = d ++ [(k, v)].
Proof.
  induction d as [|[k' v'] d IH]; simpl; [reflexivity|].
  intros Hk. destruct (String.eqb_spec k' k) as [->|_].
  - exfalso. apply Hk. now left.
  - f_equal. apply IH. intros Hin. apply Hk. now right.
Qed.

Lemma dict_get_map (f : Series -> F64.t) c s (l : list (string * Series)) :
  NoDup (map fst l) -> In (c, s) l ->
  dict_get c (map (fun cs => (fst cs, f (snd cs))) l) = Some (f s).
Proof.
  induction l as [|[c' s'] l IH]; simpl; [easy|].
  intros Hnd [Heq|Hin].
  - injection Heq as -> ->. now rewrite String.eqb_refl.
  - apply NoDup_cons in Hnd as [Hc' Hnd].
    destruct (String.eqb_spec c' c) as [->|_]; [|auto].
    exfalso. apply Hc', list_elem_of_In.
    change c with (fst (c, s)). now apply in_map.
Qed.

(** The guarded quotient never faults, and is the specification's shift
    whenever the anomaly mean is a number. *)
Lemma relative_change_spec n a :
  relative_change n (F64.Fin a) = Some (Spec.relative_shift n (F64.Fin a)).
Proof.
  unfold relative_change, Spec.relative_shift, F64.div, F64.sub, F64.eqb, F64.zero.
  destruct n as [q| | |]; try reflexivity.
  destruct (Qeq_bool q 0); [|reflexivity].
  destruct (Qeq_bool a 0); reflexivity.
Qed.

Section Loop.

Variables (df : DataFrame.t) (cls : Series).
Hypothesis (Hwf : wf df) (Hcls : getitem "class" df = Some cls).

Let anomaly := getrows (eq_scalar cls 1%Q) df.
Let normal := getrows (eq_scalar cls 0%Q) df.

Lemma column_length col s : In (col, s) (cols df) -> length s = length cls.
Proof using Hwf Hcls.
  intros Hin. destruct Hwf as [Hlen _].
  rewrite List.Forall_forall in Hlen.
  apply FrameFacts.lookup_col_Some in Hcls.
  apply Hlen in Hin. apply Hlen in Hcls. simpl in *. congruence.
Qed.

Lemma normal_mean_ok col s :
  In (col, s) (cols df) ->
  normal_mean_of normal col = Some (Spec.mean_normal cls s).
Proof using Hwf.
  intros Hin. unfold normal_mean_of, normal.
  rewrite FrameFacts.getitem_getrows. unfold getitem.
  rewrite (FrameFacts.lookup_col_In col s); [reflexivity | apply Hwf | exact Hin].
Qed.

Lemma anomaly_mean_ok col s :
  In (col, s) (cols df) ->
  anomaly_mean_of anomaly col = Some (Spec.mean_anomaly cls s).
Proof using Hwf.
  intros Hin. unfold anomaly_mean_of, Spec.mean_anomaly, anomaly, empty.
  simpl. rewrite length_map, FrameFacts.count_true_eq_scalar.
  assert (Hcols : (length (cols df) =? 0)%nat = false)
    by (destruct (cols df); [easy | reflexivity]).
  rewrite Hcols. simpl.
  destruct (existsb _ cls); simpl; [|reflexivity].
  rewrite FrameFacts.getitem_getrows. unfold getitem.
  rewrite (FrameFacts.lookup_col_In col s); [reflexivity | apply Hwf | exact Hin].
Qed.

Lemma mean_anomaly_finite col s :
  In (col, s) (cols df) -> exists a, Spec.mean_anomaly cls s = F64.Fin a.
Proof using Hwf Hcls.
  intros Hin. unfold Spec.mean_anomaly.
  destruct (existsb _ cls) eqn:E; [|now exists 0%Q].
  apply F64Facts.mean_finite. intros Hnil.
  apply (f_equal (@length Q)) in Hnil.
  rewrite FrameFacts.length_select in Hnil.
  - pose proof (FrameFacts.count_true_eq_scalar cls 1%Q) as Hc.
    rewrite E, Hnil in Hc. discriminate.
  - rewrite FrameFacts.length_eq_scalar. symmetry. eapply column_length, Hin.
Qed.

Lemma loop_body_ok acc col s :
  In (col, s) (cols df) -> col <> "class" ->
  loop_body normal anomaly acc col
  = Some (dict_set col (Spec.shift_of cls s) acc).
Proof using Hwf Hcls.
  intros Hin Hne. unfold loop_body.
  destruct (String.eqb_spec col "class") as [->|_]; [easy|]. simpl.
  rewrite (normal_mean_ok col s Hin), (anomaly_mean_ok col s Hin). simpl.
  destruct (mean_anomaly_finite col s Hin) as [a Ha].
  unfold Spec.shift_of. rewrite Ha, relative_change_spec. reflexivity.
Qed.

Lemma loop_ok (l : list (string * Series)) : forall acc,
  (forall cs, In cs l -> In cs (cols df) /\ fst cs <> "class") ->
  NoDup (map fst acc ++ map fst l) ->
  loop normal anomaly (map fst l) acc
  = Some (acc ++ map (fun cs => (fst cs, Spec.shift_of cls (snd cs))) l).
Proof using Hwf Hcls.
  induction l as [|[c s] l IH]; intros acc Hl Hnd; simpl.
  - now rewrite app_nil_r.
  - destruct (Hl (c, s)) as [Hin Hne]; [now left|].
    rewrite (loop_body_ok acc c s Hin Hne). simpl.
    assert (Hfresh : ~ In c (map fst acc)).
    { apply NoDup_app in Hnd as (_ & Hdis & _).
      intros Hc. apply list_elem_of_In in Hc.
      apply (Hdis c Hc). now left. }
    rewrite (dict_set_fresh c _ acc Hfresh), IH.
    + now rewrite <- app_assoc.
    + intros cs Hcs. apply Hl. now right.
    + rewrite map_app. simpl. rewrite <- app_assoc. exact Hnd.
Qed.

(** The dict after the loop: one entry per column of [X], in the order
    of the columns, holding the specification's shift. *)
Lemma feature_diffs_spec X :
  drop "class" df = Some X ->
  feature_diffs df X
  = Some (map (fun cs => (fst cs, Spec.shift_of cls (snd cs))) (cols X)).
Proof using Hwf Hcls.
  intros HX. unfold feature_diffs. rewrite Hcls. simpl.
  unfold columns. apply (loop_ok (cols X) []).
  - intros [c s] Hin. now apply (FrameFacts.drop_In _ _ _ c s HX).
  - simpl. apply (FrameFacts.drop_NoDup _ _ _ HX), Hwf.
Qed.

End Loop.

Lemma drop_class_Some df X : drop "class" df = Some X -> exists cls, getitem "class" df = Some cls.
Proof. unfold drop. destruct (getitem "class" df); [eauto | easy]. Qed.

End SelectorFacts.

(** ** The feature selector *)

Module SelectorTheorems.

Import DataFrame FeatureSelector.
Local Open Scope Q_scope.

Lemma relative_change_total n a : is_Some (relative_change n a).
Proof.
  unfold relative_change.
  destruct (F64.eqb n F64.zero) eqn:E.
  - destruct (F64.eqb a F64.zero); eauto.
  - unfold F64.div. destruct n as [q| | |]; eauto.
    rewrite F64Facts.eqb_zero_Fin in E. rewrite E. eauto.
Qed.

Lemma feature_diff_df_spec df X cls :
  wf df -> drop "class" df = Some X -> getitem "class" df = Some cls ->
  feature_diff_df df X
  = Some (sort_values (map (fun cs => (fst cs, Spec.shift_of cls (snd cs))) (cols X))).
Proof.
  intros Hwf HX Hcls. unfold feature_diff_df.
  now rewrite (SelectorFacts.feature_diffs_spec df cls Hwf Hcls X HX).
Qed.




End SelectorTheorems.



(** ** Running cells *)

Module MonadFacts.

Import Notebook.

Lemma bind_Some {A B} (m : M A) (k : A -> M B) (w : world) (r : B * world) :
  (m ≫= k) w = Some r <-> exists a w', m w = Some (a, w') /\ k a w' = Some r.
Proof.
  unfold mbind, M_bind, bind. destruct (m w) as [[a w']|]; split.
  - intros H. eauto.
  - now intros (a0 & w0 & [= -> ->] & H).
  - easy.
  - now intros (a0 & w0 & H & _).
Qed.

Lemma lift_Some {A} (o : option A) (w : world) (a : A) (w' : world) :
  lift o w = Some (a, w') <-> o = Some a /\ w' = w.
Proof.
  unfold lift. destruct o; split; try easy.
  - now intros [= -> ->].
  - now intros [[= ->] ->].
Qed.

Lemma ret_Some {A} (a b : A) (w w' : world) :
  (mret a : M A) w = Some (b, w') <-> b = a /\ w' = w.
Proof.
  unfold mret, M_ret, ret. split.
  - now intros [= -> ->].
  - now intros [-> ->].
Qed.

Lemma sim_refl w : sim w w.
Proof. now repeat split. Qed.

Lemma follows_bind {A B} (m1 m2 : M A) (k1 k2 : A -> M B) :
  follows m1 m2 -> (forall a, follows (k1 a) (k2 a)) ->
  follows (m1 ≫= k1) (m2 ≫= k2).
Proof.
  intros Hm Hk w1 w2 Hsim b w1' H.
  apply bind_Some in H as (a & wa & Ha & Hb).
  destruct (Hm w1 w2 Hsim a wa Ha) as (wb & Ha2 & Hsim2).
  destruct (Hk a wa wb Hsim2 b w1' Hb) as (w2' & Hb2 & Hsim3).
  exists w2'. split; [|exact Hsim3].
  apply bind_Some. eauto.
Qed.

Lemma follows_lift {A} (o : option A) : follows (lift o) (lift o).
Proof.
  intros w1 w2 Hsim a w1' H. apply lift_Some in H as [-> ->].
  exists w2. split; [reflexivity | exact Hsim].
Qed.

Lemma follows_ret {A} (a : A) : follows (mret a) (mret a).
Proof.
  intros w1 w2 Hsim b w1' H. apply ret_Some in H as [-> ->].
  exists w2. split; [reflexivity | exact Hsim].
Qed.

Lemma follows_print s1 s2 : follows (print s1) (print s2).
Proof.
  intros w1 w2 (Hfs & Hig & Hsh) [] w1' [= <-].
  eexists. split; [reflexivity|]. now repeat split.
Qed.

Lemma follows_filterwarnings : follows filterwarnings_ignore filterwarnings_ignore.
Proof.
  intros w1 w2 (Hfs & Hig & Hsh) [] w1' [= <-].
  eexists. split; [reflexivity|]. now repeat split.
Qed.

Lemma follows_warn ws : follows (warn ws) (warn ws).
Proof.
  intros w1 w2 (Hfs & Hig & Hsh) [] w1' [= <-].
  eexists. split; [reflexivity|].
  rewrite <- Hig. unfold sim.
  destruct (ignore_warnings w1) eqn:E; simpl; rewrite ?Hsh;
    (split; [exact Hfs | split; [congruence | reflexivity]]).
Qed.

Lemma follows_write_file path content :
  follows (write_file path content) (write_file path content).
Proof.
  intros w1 w2 (Hfs & Hig & Hsh) [] w1' [= <-].
  eexists. split; [reflexivity|]. repeat split; simpl; congruence.
Qed.

Lemma follows_read_file path : follows (read_file path) (read_file path).
Proof.
  intros w1 w2 (Hfs & Hig & Hsh) a w1'. unfold read_file. rewrite <- Hfs.
  destruct (fs w1 !! path); [|easy]. intros [= -> ->].
  eexists. split; [reflexivity|]. now repeat split.
Qed.

(** Printing where the other run stays silent, and the reverse. *)
Lemma follows_ret_print s : follows (mret tt) (print s).
Proof.
  intros w1 w2 (Hfs & Hig & Hsh) [] w1' H. apply ret_Some in H as [_ ->].
  eexists. split; [reflexivity|]. now repeat split.
Qed.

Lemma follows_print_ret s : follows (print s) (mret tt).
Proof.
  intros w1 w2 (Hfs & Hig & Hsh) [] w1' [= <-].
  eexists. split; [reflexivity|]. now repeat split.
Qed.

End MonadFacts.

(** ** The run, stage by stage *)

Module RunFacts.

Import DataFrame Sk Notebook.

Ltac inv_bind H :=
  match type of H with
  | (_ ≫= _) _ = Some _ =>
      let a := fresh "a" in
      let w := fresh "w" in
      let Hst := fresh "Hst" in
      apply MonadFacts.bind_Some in H as (a & w & Hst & H);
      repeat match type of H with
             | context [let '(_, _) := ?x in _] => destruct x
             end;
      cbv beta iota zeta in H
  end.

Ltac inv_prim :=
  repeat match goal with
  | H : lift _ _ = Some _ |- _ => apply MonadFacts.lift_Some in H as [H ->]
  | H : print _ _ = Some _ |- _ => unfold print in H; injection H; clear H; intros; subst
  | H : filterwarnings_ignore _ = Some _ |- _ =>
      unfold filterwarnings_ignore in H; injection H; clear H; intros; subst
  | H : mret _ _ = Some _ |- _ => apply MonadFacts.ret_Some in H as [-> ->]
  | H : ret _ _ = Some _ |- _ => injection H as <- <-
  end.

Lemma cell2_run import_ok w :
  exists w1,
    Imports.cell2 import_ok w = Some (import_ok, w1)
    /\ fs w1 = fs w
    /\ ignore_warnings w1 = true
    /\ shown_warnings w1 = shown_warnings w
    /\ stdout w1
       = stdout w ++
         (if import_ok then []
          else ["Warning: SHAP and/or LIME libraries not installed. Explainability sections will be skipped.";
                "Run 'pip install shap lime' to install them."]).
Proof.
  destruct import_ok; eexists; (split; [reflexivity|]); simpl; repeat split.
  - now rewrite app_nil_r.
  - now rewrite <- app_assoc.
Qed.

Section Stages.

Context {L : Library} {E : Explainer.Explainability model}
        {P : Persister.Persistence model}.

Lemma cells_4_to_38_stages flag raw w o w' :
  Run.cells_4_to_38 flag raw w = Some (o, w') ->
  exists df X y wa wb wc wd we,
    Prepare.cell10 raw = Some (df, X, y)
    /\ FeatureSelector.cell13 df X = Some (Run.top_features o, Run.X_selected o)
    /\ Trainer.cell15 (Run.X_selected o) y = Some (Run.split o)
    /\ Trainer.cell17 (Run.split o) = Some (Run.search o)
    /\ Run.y_pred o = Trainer.cell18 (Run.search o) (Run.split o)
    /\ (fs wa = fs w /\ ignore_warnings wa = ignore_warnings w
        /\ shown_warnings wa = shown_warnings w)
    /\ Evaluator.cell20 (y_test (Run.split o)) (Run.y_pred o) wa = Some (Run.metrics o, wb)
    /\ Visualisation.cell25 (Run.X_selected o) = Some (Run.X_pca o)
    /\ Visualisation.cell26 (Run.X_pca o) y (best_params_ (Run.search o))
       = Some (Run.split_pca o, Run.svm_2d o)
    /\ Explainer.cell32 flag (Run.split o) wb = Some (tt, wc)
    /\ Explainer.cell34 flag (Run.split o) (columns (Run.X_selected o))
         (best_estimator_ (Run.search o)) wc = Some (tt, wd)
    /\ Persister.cell36 (best_estimator_ (Run.search o)) (Run.top_features o) wd
       = Some (tt, we)
    /\ Persister.cell38 we = Some ((Run.loaded_model o, Run.selected_features o), w').
Proof.
  intros H. unfold Run.cells_4_to_38 in H.
  repeat inv_bind H. inv_prim.
  repeat match goal with u : unit |- _ => destruct u end.
  do 8 eexists. simpl.
  repeat match goal with |- _ /\ _ => split end; try eassumption; try reflexivity.
Qed.

Lemma run_all_stages import_ok raw w o w' :
  Run.run_all import_ok raw w = Some (o, w') ->
  exists w1,
    Imports.cell2 import_ok w = Some (import_ok, w1)
    /\ Run.cells_4_to_38 import_ok raw w1 = Some (o, w').
Proof.
  intros H. unfold Run.run_all in H. inv_bind H.
  destruct (cell2_run import_ok w) as (w1 & Hc & _).
  rewrite Hc in Hst. injection Hst as <- <-. eauto.
Qed.

End Stages.

End RunFacts.

(** ** Saving and loading *)

Module PersisterTheorems.

Import Notebook Persister.

Section Cells.

Context {model : Type} {P : Persistence model}.

Lemma cell36_run (m : model) (top : list string) (w : world) :
  cell36 m top w
  = Some (tt, mkWorld (<[features_path := to_csv "Feature" top]>
                         (<[model_path := joblib_dumps m]> (fs w)))
                      (stdout w ++ ["Model saved to 'bgp_anomaly_svm_model.pkl'";
                                    "Selected features saved to 'bgp_anomaly_selected_features.csv'"])
                      (ignore_warnings w) (shown_warnings w)).
Proof.
  unfold cell36, mbind, M_bind, bind, write_file, print. simpl.
  now rewrite <- app_assoc.
Qed.

Lemma cell38_run (w : world) :
  cell38 w
  = match fs w !! model_path with
    | None => None
    | Some pkl =>
        match joblib_loads pkl with
        | None => None
        | Some loaded_model =>
            match fs w !! features_path with
            | None => None
            | Some csv =>
                match read_csv csv with
                | None => None
                | Some frame =>
                    match column "Feature" frame with
                    | None => None
                    | Some selected_features =>
                        Some ((loaded_model, selected_features),
                              mkWorld (fs w)
                                (stdout w ++ ["Model and feature list loaded successfully."])
                                (ignore_warnings w) (shown_warnings w))
                    end
                end
            end
        end
    end.
Proof.
  unfold cell38, mbind, M_bind, bind, read_file, lift, print, mret, M_ret, ret.
  fold model_path features_path.
  destruct (fs w !! model_path); [|reflexivity].
  destruct (joblib_loads _); [|reflexivity].
  destruct (fs w !! features_path); [|reflexivity].
  destruct (read_csv _); [|reflexivity].
  destruct (column _ _); reflexivity.
Qed.

(** C9.  Cell 36 writes the model to 'svm_nimda_1min_model.pkl' and the
    feature list to 'nimda_1_bgp_anomaly_selected_features.csv' and nothing
    else; cell 38 reads these two paths, fails when either is missing, and
    depends on no other file; the two lines cell 36 prints name
    'bgp_anomaly_svm_model.pkl' and 'bgp_anomaly_selected_features.csv',
    which it leaves as they were: absent when they were absent. *)
Theorem saved_paths_reloaded_printed_paths_untouched
    (m : model) (top : list string) (w : world) :
  exists w1,
    cell36 m top w = Some (tt, w1)
    /\ fs w1 !! "svm_nimda_1min_model.pkl" = Some (joblib_dumps m)
    /\ fs w1 !! "nimda_1_bgp_anomaly_selected_features.csv" = Some (to_csv "Feature" top)
    /\ (forall path,
          path <> "svm_nimda_1min_model.pkl" ->
          path <> "nimda_1_bgp_anomaly_selected_features.csv" ->
          fs w1 !! path = fs w !! path)
    /\ stdout w1
       = stdout w ++ ["Model saved to 'bgp_anomaly_svm_model.pkl'";
                      "Selected features saved to 'bgp_anomaly_selected_features.csv'"]
    /\ fs w1 !! "bgp_anomaly_svm_model.pkl" = fs w !! "bgp_anomaly_svm_model.pkl"
    /\ fs w1 !! "bgp_anomaly_selected_features.csv"
       = fs w !! "bgp_anomaly_selected_features.csv"
    /\ (forall wa wb,
          fs wa !! "svm_nimda_1min_model.pkl" = fs wb !! "svm_nimda_1min_model.pkl" ->
          fs wa !! "nimda_1_bgp_anomaly_selected_features.csv"
          = fs wb !! "nimda_1_bgp_anomaly_selected_features.csv" ->
          fst <$> cell38 wa = fst <$> cell38 wb)
    /\ (forall wa,
          fs wa !! "svm_nimda_1min_model.pkl" = None
          \/ fs wa !! "nimda_1_bgp_anomaly_selected_features.csv" = None ->
          cell38 wa = None).
Proof.
  eexists. split; [apply cell36_run|]. simpl.
  assert (Hother : forall path, path <> model_path -> path <> features_path ->
            <[features_path := to_csv "Feature" top]>
              (<[model_path := joblib_dumps m]> (fs w)) !! path = fs w !! path).
  { intros path H1 H2. now rewrite !lookup_insert_ne. }
  split; [|split; [|split; [|split; [|split; [|split; [|split]]]]]].
  - rewrite lookup_insert_ne by easy. apply lookup_insert_eq.
  - apply lookup_insert_eq.
  - exact Hother.
  - reflexivity.
  - now apply Hother.
  - now apply Hother.
  - intros wa wb H1 H2. rewrite !cell38_run. fold model_path features_path in H1, H2.
    rewrite H1, H2.
    destruct (fs wb !! model_path); [|reflexivity].
    destruct (joblib_loads _); [|reflexivity].
    destruct (fs wb !! features_path); [|reflexivity].
    destruct (read_csv _); [|reflexivity].
    destruct (column _ _); reflexivity.
  - intros wa Hnone. rewrite cell38_run. fold model_path features_path in Hnone.
    destruct Hnone as [-> | Hf]; [reflexivity|].
    rewrite Hf. destruct (fs wa !! model_path); [|reflexivity].
    destruct (joblib_loads _); reflexivity.
Qed.

Context {Laws : PersistenceLaws P}.

Lemma save_then_load (m : model) (top : list string) (w : world) :
  exists w1 w2,
    cell36 m top w = Some (tt, w1) /\ cell38 w1 = Some ((m, top), w2).
Proof.
  eexists. eexists. split; [apply cell36_run|].
  rewrite cell38_run. simpl.
  rewrite lookup_insert_ne by easy. rewrite lookup_insert_eq.
  rewrite joblib_roundtrip. rewrite lookup_insert_eq.
  rewrite csv_roundtrip. simpl. reflexivity.
Qed.

Lemma load_after_save (m : model) (top : list string) (w w1 : world) r w2 :
  cell36 m top w = Some (tt, w1) -> cell38 w1 = Some (r, w2) -> r = (m, top).
Proof.
  intros H1 H2. destruct (save_then_load m top w) as (w1' & w2' & H1' & H2').
  congruence.
Qed.

End Cells.

End PersisterTheorems.

(** ** The small library instance keeps the libraries' promises *)

Module ToyFacts.

Import Toy.

Lemma append_cons (a : ascii) (s t : string) :
  (String a s ++ t)%string = String a (s ++ t)%string.
Proof. reflexivity. Qed.

Lemma append_char_assoc (cur : string) (c : ascii) (f : string) :
  ((cur ++ String c "") ++ f)%string = (cur ++ String c f)%string.
Proof.
  induction cur as [|a cur IH]; [reflexivity|].
  rewrite !append_cons. f_equal. exact IH.
Qed.

Lemma append_empty_r (s : string) : (s ++ "")%string = s.
Proof.
  induction s as [|a s IH]; [reflexivity|].
  rewrite append_cons. f_equal. exact IH.
Qed.

Lemma length_append (s1 s2 : string) :
  String.length (s1 ++ s2) = (String.length s1 + String.length s2)%nat.
Proof.
  induction s1 as [|a s1 IH]; [reflexivity|].
  rewrite append_cons. simpl. f_equal. exact IH.
Qed.

Lemma dec_enc_field (f : string) : forall cur rest fuel,
  dec_fields (S (String.length f) + fuel) cur (enc_field f ++ rest)
  = (r ← dec_fields fuel "" rest; Some ((cur ++ f)%string :: r)).
Proof.
  induction f as [|c f IH]; intros cur rest fuel.
  - change (dec_fields (S (String.length "") + fuel) cur (enc_field "" ++ rest))
      with (r ← dec_fields fuel "" rest; Some (cur :: r)).
    destruct (dec_fields fuel "" rest); simpl; [|reflexivity].
    now rewrite append_empty_r.
  - change (dec_fields (S (String.length (String c f)) + fuel) cur
              (enc_field (String c f) ++ rest))
      with (dec_fields (S (String.length f) + fuel) (cur ++ String c "")
              (enc_field f ++ rest)).
    rewrite IH. destruct (dec_fields fuel "" rest); simpl; [|reflexivity].
    now rewrite append_char_assoc.
Qed.

Lemma dec_enc_fields (l : list string) : forall k,
  dec_fields (steps l + S k) "" (enc_fields l) = Some l.
Proof.
  induction l as [|f l IH]; intros k; [reflexivity|].
  change (enc_fields (f :: l)) with (enc_field f ++ enc_fields l)%string.
  replace (steps (f :: l) + S k)%nat
    with (S (String.length f) + (steps l + S k))%nat by (simpl; lia).
  rewrite dec_enc_field, IH. reflexivity.
Qed.

Lemma steps_le_length (l : list string) : (steps l <= String.length (enc_fields l))%nat.
Proof.
  induction l as [|f l IH]; simpl; [lia|].
  rewrite length_append.
  assert (S (String.length f) <= String.length (enc_field f))%nat; [|lia].
  clear. induction f as [|c f IH]; simpl; lia.
Qed.

Lemma toy_csv_roundtrip col names :
  toy_read_csv (enc_fields (col :: names)) = Some [(col, names)].
Proof.
  unfold toy_read_csv.
  pose proof (steps_le_length (col :: names)) as Hle.
  replace (S (String.length (enc_fields (col :: names))))
    with (steps (col :: names)
          + S (String.length (enc_fields (col :: names)) - steps (col :: names)))%nat
    by lia.
  now rewrite dec_enc_fields.
Qed.

Lemma length_unary n : String.length (unary n) = n.
Proof. induction n as [|n IH]; simpl; [reflexivity | now rewrite IH]. Qed.

#[export] Instance persistence_laws : Persister.PersistenceLaws persistence.
Proof.
  split.
  - intros m. simpl. now rewrite length_unary.
  - intros col names. apply toy_csv_roundtrip.
Qed.

End ToyFacts.

(** ** The evaluator *)

Module EvaluatorFacts.

Import DataFrame Notebook Metrics.

Lemma count_pairs_no_pos (g : Q -> Q -> bool) (y_true y_pred : Series) :
  existsb is_pos y_true = false ->
  count_pairs (fun t p => is_pos t && g t p) y_true y_pred = 0%nat.
Proof.
  unfold count_pairs. revert y_pred.
  induction y_true as [|t y_true IH]; intros [|p y_pred] H; try reflexivity.
  simpl in *. apply orb_false_iff in H as [Ht H].
  rewrite Ht. simpl. now apply IH.
Qed.

Lemma count_pairs_ext (f g : Q -> Q -> bool) (y_true y_pred : Series) :
  (forall t p, f t p = g t p) -> count_pairs f y_true y_pred = count_pairs g y_true y_pred.
Proof.
  intros Hfg. unfold count_pairs. f_equal.
  apply filter_ext. intros [t p]. apply Hfg.
Qed.

Lemma prf_divide_zero metric den :
  exists q, fst (prf_divide metric 0 den) = F64.Fin q /\ (q == 0)%Q.
Proof.
  unfold prf_divide. destruct (den =? 0)%nat; simpl.
  - now exists 0%Q.
  - eexists. split; [reflexivity|]. unfold Qdiv. apply Qmult_0_l.
Qed.

(** With no positive label in [y_true]: recall is 0.0 and flagged as
    ill-defined, precision and F-score are 0. *)
Lemma prf_no_anomaly (y_true y_pred : Series) prf :
  existsb is_pos y_true = false ->
  precision_recall_fscore_support y_true y_pred = Some prf ->
  recall prf = F64.Fin 0
  /\ In (UndefinedMetricWarning "Recall") (warnings prf)
  /\ (exists p, precision prf = F64.Fin p /\ (p == 0)%Q)
  /\ (exists f, fscore prf = F64.Fin f /\ (f == 0)%Q).
Proof.
  intros Hno. unfold precision_recall_fscore_support.
  destruct (negb (length y_true =? length y_pred)%nat); [easy|].
  destruct (negb (binary_target y_true y_pred)); [easy|].
  intros [= <-]. simpl.
  assert (Htp : count_pairs (fun t p => is_pos t && is_pos p) y_true y_pred = 0%nat)
    by (now apply count_pairs_no_pos).
  assert (Htrue : count_pairs (fun t _ => is_pos t) y_true y_pred = 0%nat).
  { rewrite (count_pairs_ext _ (fun t p => is_pos t && true)).
    - now apply count_pairs_no_pos.
    - intros t p. now rewrite andb_true_r. }
  rewrite Htp, Htrue. simpl.
  split; [reflexivity|]. split.
  - apply in_or_app. right. now left.
  - split; apply prf_divide_zero.
Qed.

Lemma cell20_inv (y_test y_pred : Series) w m w' :
  Evaluator.cell20 y_test y_pred w = Some (m, w') ->
  exists acc prf,
    accuracy_score y_test y_pred = Some acc
    /\ precision_recall_fscore_support y_test y_pred = Some prf
    /\ m = mkMetrics acc (precision prf) (recall prf) (fscore prf)
    /\ fs w' = fs w
    /\ ignore_warnings w' = ignore_warnings w
    /\ shown_warnings w'
       = if ignore_warnings w then shown_warnings w
         else shown_warnings w ++ warnings prf.
Proof.
  intros H. unfold Evaluator.cell20 in H.
  repeat RunFacts.inv_bind H. RunFacts.inv_prim.
  injection Hst1 as _ <-.
  exists a, a0. simpl.
  repeat split; try assumption; destruct (ignore_warnings w) eqn:Hig; simpl;
    try reflexivity; exact Hig.
Qed.

End EvaluatorFacts.

(** ** Runs compared *)

Module RunTheorems.

Import DataFrame Sk Notebook MonadFacts.

Create HintDb follows.
#[export] Hint Resolve follows_lift follows_ret follows_print follows_warn
  follows_write_file follows_read_file follows_filterwarnings : follows.

Ltac follows_steps :=
  repeat (apply follows_bind; [solve [auto with follows] | intros ?]);
  repeat match goal with
         | p : (_ * _)%type |- _ => destruct p
         end;
  cbv beta iota zeta.

Lemma follows_cell20 y_test y_pred :
  follows (Evaluator.cell20 y_test y_pred) (Evaluator.cell20 y_test y_pred).
Proof. unfold Evaluator.cell20. repeat follows_steps. auto with follows. Qed.

Section Runs.

Context {L : Library} {E : Explainer.Explainability model}
        {P : Persister.Persistence model}.

Lemma follows_cell36 m top : follows (Persister.cell36 m top) (Persister.cell36 m top).
Proof. unfold Persister.cell36. repeat follows_steps. auto with follows. Qed.

Lemma follows_cell38 : follows Persister.cell38 Persister.cell38.
Proof. unfold Persister.cell38. repeat follows_steps. auto with follows. Qed.

Lemma cell32_skipped sp w :
  Explainer.cell32 false sp w
  = Some (tt, mkWorld (fs w)
                (stdout w ++ ["SHAP analysis skipped because libraries are not installed."])
                (ignore_warnings w) (shown_warnings w)).
Proof. reflexivity. Qed.

Lemma cell34_skipped sp names m w :
  Explainer.cell34 false sp names m w
  = Some (tt, mkWorld (fs w)
                (stdout w ++ ["LIME analysis skipped because libraries are not installed."])
                (ignore_warnings w) (shown_warnings w)).
Proof. reflexivity. Qed.

Lemma follows_cell32 sp : follows (Explainer.cell32 true sp) (Explainer.cell32 false sp).
Proof.
  intros w1 w2 Hsim [] w1' H. rewrite cell32_skipped.
  unfold Explainer.cell32 in H. RunFacts.inv_bind H. RunFacts.inv_prim.
  eexists. split; [reflexivity|]. exact Hsim.
Qed.

Lemma follows_cell34 sp names m :
  follows (Explainer.cell34 true sp names m) (Explainer.cell34 false sp names m).
Proof.
  intros w1 w2 Hsim [] w1' H. rewrite cell34_skipped.
  eexists. split; [reflexivity|].
  unfold Explainer.cell34 in H. RunFacts.inv_bind H.
  destruct (Explainer.where_eq 1 0 (y_test sp)).
  - RunFacts.inv_prim. exact Hsim.
  - RunFacts.inv_bind H. RunFacts.inv_prim. exact Hsim.
Qed.

Lemma follows_cells_4_to_38 raw :
  follows (Run.cells_4_to_38 true raw) (Run.cells_4_to_38 false raw).
Proof.
  unfold Run.cells_4_to_38.
  repeat follows_steps.
  apply follows_bind; [apply follows_cell20 | intros ?].
  repeat follows_steps.
  apply follows_bind; [apply follows_cell32 | intros ?].
  apply follows_bind; [apply follows_cell34 | intros ?].
  apply follows_bind; [apply follows_cell36 | intros ?].
  apply follows_bind; [apply follows_cell38 | intros [? ?]].
  auto with follows.
Qed.

End Runs.

End RunTheorems.

(** ** The notebook as a whole *)

Module NotebookTheorems.

Import DataFrame Sk Notebook MonadFacts.

Section Runs.

Context {L : Library} {E : Explainer.Explainability model}
        {P : Persister.Persistence model}.

Lemma cell38_stdout w r w' :
  Persister.cell38 w = Some (r, w') ->
  stdout w' = stdout w ++ ["Model and feature list loaded successfully."].
Proof.
  rewrite PersisterTheorems.cell38_run.
  repeat match goal with
         | |- context [match ?x with Some _ => _ | None => _ end] => destruct x
         end; try easy.
  now intros [= <- <-].
Qed.



(** C8.  When the import of SHAP or LIME fails, cell 2 prints its warning
    and goes on; cells 32 and 34 print their "skipped" lines and do nothing
    else; the run is then the same whatever the explainability libraries
    would have done, it completes whenever the run with the libraries does,
    with the same variables, files and warnings, and its output holds the
    two "skipped" lines. *)
Theorem explainer_skipped_when_unavailable raw w :
  (exists w1,
     Imports.cell2 false w = Some (false, w1)
     /\ stdout w1
        = stdout w ++
          ["Warning: SHAP and/or LIME libraries not installed. Explainability sections will be skipped.";
           "Run 'pip install shap lime' to install them."])
  /\ (forall sp wa,
        Explainer.cell32 false sp wa
        = Some (tt, mkWorld (fs wa) (stdout wa ++ ["SHAP analysis skipped because libraries are not installed."])
                      (ignore_warnings wa) (shown_warnings wa)))
  /\ (forall sp names m wa,
        Explainer.cell34 false sp names m wa
        = Some (tt, mkWorld (fs wa) (stdout wa ++ ["LIME analysis skipped because libraries are not installed."])
                      (ignore_warnings wa) (shown_warnings wa)))
  /\ (forall E' : Explainer.Explainability model,
        Run.run_all (E := E') false raw w = Run.run_all (E := E) false raw w)
  /\ (forall o w1,
        Run.run_all true raw w = Some (o, w1) ->
        exists w2,
          Run.run_all false raw w = Some (o, w2)
          /\ fs w2 = fs w1 /\ shown_warnings w2 = shown_warnings w1)
  /\ (forall o w2,
        Run.run_all false raw w = Some (o, w2) ->
        In "SHAP analysis skipped because libraries are not installed." (stdout w2)
        /\ In "LIME analysis skipped because libraries are not installed." (stdout w2)).
Proof.
  split; [|split; [|split; [|split; [|split]]]].
  - destruct (RunFacts.cell2_run false w) as (w1 & H2 & _ & _ & _ & Hout). eauto.
  - intros sp wa. apply RunTheorems.cell32_skipped.
  - intros sp names m wa. apply RunTheorems.cell34_skipped.
  - intros E'. reflexivity.
  - intros o w1 Hrun.
    apply RunFacts.run_all_stages in Hrun as (wt & Ht & Hrun).
    destruct (RunFacts.cell2_run true w) as (wt' & Ht' & Hfs & Hig & Hsh & _).
    rewrite Ht' in Ht. injection Ht as ->.
    destruct (RunFacts.cell2_run false w) as (wf & Hf & Hfs' & Hig' & Hsh' & _).
    assert (Hsim : sim wt wf) by (repeat split; congruence).
    destruct (RunTheorems.follows_cells_4_to_38 raw wt wf Hsim o w1 Hrun)
      as (w2 & Hrun2 & (Hfs2 & _ & Hsh2)).
    exists w2. split; [|split; congruence].
    unfold Run.run_all. apply bind_Some. eauto.
  - intros o w2 Hrun.
    apply RunFacts.run_all_stages in Hrun as (w1 & _ & Hrun).
    apply RunFacts.cells_4_to_38_stages in Hrun
      as (df & X & y & wa & wb & wc & wd & we & _ & _ & _ & _ & _
          & _ & _ & _ & _ & H32 & H34 & H36 & H38).
    rewrite RunTheorems.cell32_skipped in H32. injection H32 as <-.
    rewrite RunTheorems.cell34_skipped in H34. injection H34 as <-.
    rewrite PersisterTheorems.cell36_run in H36. injection H36 as <-.
    apply cell38_stdout in H38. rewrite H38. simpl.
    split; apply in_or_app; left; apply in_or_app; left; apply in_or_app.
    + left. apply in_or_app. right. now left.
    + right. now left.
Qed.

End Runs.


End NotebookTheorems.

(** ** Split and search *)

Module TrainerFacts.

Import DataFrame Sk.

Lemma lookup_map {A B} (f : A -> B) (l : list A) (i : nat) :
  map f l !! i = f <$> (l !! i).
Proof.
  revert i. induction l as [|a l IH]; intros [|i]; simpl; auto.
Qed.

Lemma take_rows_map {A B} (f : A -> B) (idx : list nat) (l : list A) :
  take_rows idx (map f l) = map f <$> take_rows idx l.
Proof.
  unfold take_rows. induction idx as [|i idx IH]; simpl; [reflexivity|].
  rewrite lookup_map. destruct (l !! i); simpl; [|reflexivity].
  rewrite IH. destruct (mapM (fun i0 : nat => l !! i0) idx); reflexivity.
Qed.

Lemma take_rows_agree {A} (idx : list nat) (l l' : list A) :
  (forall i, In i idx -> l' !! i = l !! i) -> take_rows idx l' = take_rows idx l.
Proof.
  unfold take_rows. induction idx as [|i idx IH]; intros H; simpl; [reflexivity|].
  rewrite (H i) by now left.
  rewrite IH; [reflexivity|]. intros j Hj. apply H. now right.
Qed.

Lemma take_rows_in_range {A} (idx : list nat) (l r : list A) (i : nat) :
  take_rows idx l = Some r -> In i idx -> (i < length l)%nat.
Proof.
  unfold take_rows. revert r. induction idx as [|j idx IH]; intros r H Hi; [easy|].
  simpl in H. destruct (l !! j) eqn:Hj; [|easy]. simpl in H.
  destruct (mapM _ idx) eqn:Hm; [|easy].
  destruct Hi as [->|Hi].
  - eapply lookup_lt_Some, Hj.
  - eapply IH; eauto.
Qed.

Lemma length_values (df : DataFrame.t) : length (values df) = nrows df.
Proof. unfold values. now rewrite length_map, length_seq. Qed.

Lemma lookup_values (df : DataFrame.t) (i : nat) :
  (i < nrows df)%nat -> values df !! i = Some (DataFrame.row i df).
Proof.
  intros Hi. unfold values. rewrite lookup_map.
  rewrite lookup_seq_lt by exact Hi. reflexivity.
Qed.

(** ** The best score *)

(** [a] is ranked strictly below [b]. *)
Lemma beats_trans a b c : beats a b = true -> beats b c = true -> beats a c = true.
Proof.
  unfold beats. intros Hab Hbc.
  apply andb_true_iff in Hab as [Hb Hab]. apply andb_true_iff in Hbc as [Hc Hbc].
  apply negb_true_iff in Hb. rewrite Hb in Hbc. simpl in Hbc.
  rewrite Hc. simpl.
  destruct (F64.is_nan a) eqn:Ha; [reflexivity|]. simpl in *.
  apply negb_true_iff in Hab, Hbc. apply negb_true_iff.
  apply negb_true_iff in Hc.
  destruct (F64.leb c a) eqn:Hca; [|reflexivity].
  destruct (F64Facts.leb_total a b Ha Hb) as [Hle|Hle]; [|congruence].
  assert (F64.leb c b = true) by (eapply F64Facts.leb_trans; eauto).
  congruence.
Qed.

Lemma argmax_from_spec (l : list F64.t) : forall pre best_i best,
  pre !! best_i = Some best ->
  (forall x, In x pre -> beats best x = false) ->
  exists b,
    (pre ++ l) !! argmax_from best_i best (length pre) l = Some b
    /\ forall x, In x (pre ++ l) -> beats b x = false.
Proof.
  induction l as [|x l IH]; intros pre best_i best Hbest Hpre; simpl.
  - exists best. rewrite app_nil_r. auto.
  - replace (pre ++ x :: l) with ((pre ++ [x]) ++ l) by now rewrite <- app_assoc.
    replace (S (length pre)) with (length (pre ++ [x]))
      by (rewrite length_app; simpl; lia).
    destruct (beats best x) eqn:Hbx.
    + apply IH.
      * rewrite lookup_app_r by lia. now rewrite Nat.sub_diag.
      * intros z Hz. apply in_app_or in Hz as [Hz|[<-|[]]].
        -- destruct (beats x z) eqn:Hxz; [|reflexivity].
           pose proof (beats_trans best x z Hbx Hxz) as Hbz.
           specialize (Hpre z Hz). congruence.
        -- unfold beats. destruct (F64.is_nan x) eqn:Hx; [reflexivity|].
           simpl. now rewrite F64Facts.leb_refl.
    + apply IH.
      * rewrite lookup_app_l by (eapply lookup_lt_Some; eauto). exact Hbest.
      * intros z Hz. apply in_app_or in Hz as [Hz|[<-|[]]]; auto.
Qed.

Lemma argmax_spec (l : list F64.t) (i : nat) :
  argmax l = Some i ->
  exists b, l !! i = Some b /\ forall x, In x l -> beats b x = false.
Proof.
  destruct l as [|x l]; [easy|]. intros [= <-].
  apply (argmax_from_spec l [x] 0 x); [reflexivity|].
  intros z [<-|[]]. unfold beats.
  destruct (F64.is_nan x) eqn:Hx; [reflexivity|].
  simpl. now rewrite F64Facts.leb_refl.
Qed.

End TrainerFacts.

Module TrainerTheorems.

Import DataFrame Sk TrainerFacts.

Lemma In_ParameterGrid (g : param_grid_t) (p : params) :
  In p (ParameterGrid g)
  <-> In (svm__C p) (grid_C g)
      /\ In (svm__gamma p) (grid_gamma g)
      /\ In (svm__kernel p) (grid_kernel g).
Proof.
  unfold ParameterGrid. rewrite in_flat_map. split.
  - intros (c & Hc & H). apply in_flat_map in H as (ga & Hga & H).
    apply in_map_iff in H as (k & <- & Hk). simpl. auto.
  - intros (Hc & Hga & Hk). exists (svm__C p). split; [exact Hc|].
    apply in_flat_map. exists (svm__gamma p). split; [exact Hga|].
    apply in_map_iff. exists (svm__kernel p). split; [now destruct p | exact Hk].
Qed.

Lemma take_rows_same_length {A B} (idx : list nat) (l r : list A) (l' : list B) :
  take_rows idx l = Some r -> length l' = length l ->
  exists r', take_rows idx l' = Some r'.
Proof.
  unfold take_rows. revert r. induction idx as [|i idx IH]; intros r H Hlen; simpl.
  - eauto.
  - simpl in H. destruct (l !! i) eqn:Hi; [|easy]. simpl in H.
    destruct (mapM _ idx) eqn:Hm; [|easy].
    destruct (IH _ eq_refl Hlen) as (r' & Hr').
    apply lookup_lt_Some in Hi. rewrite <- Hlen in Hi.
    apply lookup_lt_is_Some_2 in Hi as [b Hb].
    rewrite Hb. simpl. rewrite Hr'. simpl. eauto.
Qed.

Section Split.

Context {L : Library}.

Lemma train_test_split_inv X y test_size seed stratify sp :
  train_test_split X y test_size seed stratify = Some sp ->
  length X = length y
  /\ exists train test,
       shuffle_split (length X) test_size seed stratify = Some (train, test)
       /\ take_rows train X = Some (X_train sp)
       /\ take_rows test X = Some (X_test sp)
       /\ take_rows train y = Some (y_train sp)
       /\ take_rows test y = Some (y_test sp).
Proof.
  unfold train_test_split.
  destruct (Nat.eqb_spec (length X) (length y)) as [Hlen|]; [|easy]. simpl.
  destruct (shuffle_split _ _ _ _) as [[train test]|] eqn:Hs; [|easy]. simpl.
  destruct (take_rows train X) as [Xtr|] eqn:H1; [|easy]. simpl.
  destruct (take_rows test X) as [Xte|] eqn:H2; [|easy]. simpl.
  destruct (take_rows train y) as [ytr|] eqn:H3; [|easy]. simpl.
  destruct (take_rows test y) as [yte|] eqn:H4; [|easy]. simpl.
  intros [= <-]. split; [exact Hlen|]. exists train, test. simpl.
  repeat split; assumption || reflexivity.
Qed.

Lemma train_test_split_intro X y test_size seed stratify train test Xtr Xte ytr yte :
  length X = length y ->
  shuffle_split (length X) test_size seed stratify = Some (train, test) ->
  take_rows train X = Some Xtr -> take_rows test X = Some Xte ->
  take_rows train y = Some ytr -> take_rows test y = Some yte ->
  train_test_split X y test_size seed stratify = Some (mkSplit Xtr Xte ytr yte).
Proof.
  intros Hlen Hs H1 H2 H3 H4. unfold train_test_split.
  rewrite Hlen, Nat.eqb_refl. simpl. rewrite <- Hlen, Hs. simpl.
  rewrite H1. simpl. rewrite H2. simpl. rewrite H3. simpl. rewrite H4. reflexivity.
Qed.

Lemma GridSearchCV_fit_inv e g cv scoring X y gs :
  GridSearchCV_fit e g cv scoring X y = Some gs ->
  In (best_params_ gs) (ParameterGrid g)
  /\ best_score_ gs = cross_val_score (set_params e (best_params_ gs)) cv scoring X y
  /\ (forall p, In p (ParameterGrid g) ->
        beats (best_score_ gs) (cross_val_score (set_params e p) cv scoring X y) = false)
  /\ fit (set_params e (best_params_ gs)) X y = Some (best_estimator_ gs).
Proof.
  unfold GridSearchCV_fit. generalize (ParameterGrid g). intros candidates.
  destruct (argmax _) as [i|] eqn:Harg; [|easy].
  change (Some i ≫= ?k) with (k i). cbv beta.
  destruct (candidates !! i) as [p|] eqn:Hp; [|easy].
  change (Some p ≫= ?k) with (k p). cbv beta.
  rewrite lookup_map, Hp.
  change (Some ?s ≫= ?k) with (k s). cbv beta.
  destruct (fit _ _ _) as [m|] eqn:Hfit; [|easy].
  intros [= <-]. simpl.
  apply argmax_spec in Harg as (b & Hb & Hbest).
  rewrite lookup_map, Hp in Hb. injection Hb as <-.
  split; [apply list_elem_of_In; eapply list_elem_of_lookup_2; eauto|].
  split; [reflexivity|]. split; [|exact Hfit].
  intros q Hq. apply Hbest. apply in_map_iff. eauto.
Qed.

Context {Laws : LibraryLaws L}.

(** C3.  Cell 15 holds out a split stratified on the labels, with test
    fraction 3/10 and seed 42, whose test rows are no training rows; cell
    17 scores each of the 48 combinations of the grid by 5-fold
    cross-validated F1 on the training rows, behind a scaler, keeps a
    combination no other one beats and refits it on the training rows;
    a table that differs on held-out rows only gives the same search. *)
Theorem split_then_grid_search (X_selected : DataFrame.t) (y : Series) sp gs :
  Trainer.cell15 X_selected y = Some sp ->
  Trainer.cell17 sp = Some gs ->
  (exists train test,
     shuffle_split (nrows X_selected) (3 # 10) 42 y = Some (train, test)
     /\ take_rows train (values X_selected) = Some (X_train sp)
     /\ take_rows test (values X_selected) = Some (X_test sp)
     /\ take_rows train y = Some (y_train sp)
     /\ take_rows test y = Some (y_test sp)
     /\ Permutation (train ++ test) (seq 0 (nrows X_selected))
     /\ (forall i, In i test -> ~ In i train)
     /\ forall X' : DataFrame.t,
          nrows X' = nrows X_selected ->
          (forall i, In i train -> DataFrame.row i X' = DataFrame.row i X_selected) ->
          exists sp',
            Trainer.cell15 X' y = Some sp'
            /\ X_train sp' = X_train sp /\ y_train sp' = y_train sp
            /\ Trainer.cell17 sp' = Some gs)
  /\ scaler Trainer.pipeline = true
  /\ length (ParameterGrid Trainer.param_grid) = 48%nat
  /\ (forall p,
        In p (ParameterGrid Trainer.param_grid)
        <-> In (svm__C p) [1 # 10; 1; 10; 100]%Q
            /\ In (svm__gamma p) [scale; auto; gamma_value (1 # 10); gamma_value (1 # 100)]
            /\ In (svm__kernel p) [rbf; linear; poly])
  /\ In (best_params_ gs) (ParameterGrid Trainer.param_grid)
  /\ best_score_ gs
     = cross_val_score (set_params Trainer.pipeline (best_params_ gs)) 5 f1
         (X_train sp) (y_train sp)
  /\ (forall p, In p (ParameterGrid Trainer.param_grid) ->
        beats (best_score_ gs)
              (cross_val_score (set_params Trainer.pipeline p) 5 f1
                 (X_train sp) (y_train sp)) = false)
  /\ fit (set_params Trainer.pipeline (best_params_ gs)) (X_train sp) (y_train sp)
     = Some (best_estimator_ gs).
Proof.
  intros H15 H17. split.
  - unfold Trainer.cell15 in H15.
    apply train_test_split_inv in H15
      as (Hlen & train & test & Hs & Hxtr & Hxte & Hytr & Hyte).
    rewrite length_values in Hs, Hlen.
    exists train, test.
    pose proof (shuffle_split_partition _ _ _ _ _ _ Hs) as Hperm.
    assert (Hnd : NoDup (train ++ test)) by (rewrite Hperm; apply NoDup_seq).
    apply NoDup_app in Hnd as (_ & Hdis & _).
    repeat (split; [assumption|]).
    split.
    { intros i Hte Htr. apply list_elem_of_In in Hte, Htr. now apply (Hdis i). }
    intros X' Hn Hrows.
    assert (Htr' : take_rows train (values X') = Some (X_train sp)).
    { rewrite <- Hxtr. apply take_rows_agree. intros i Hi.
      assert (i < nrows X_selected)%nat.
      { rewrite <- length_values.
        exact (take_rows_in_range train (values X_selected) (X_train sp) i Hxtr Hi). }
      rewrite !lookup_values by lia. now rewrite Hrows. }
    destruct (take_rows_same_length test (values X_selected) _ (values X') Hxte)
      as (Xte' & Hte'); [now rewrite !length_values|].
    exists (mkSplit (X_train sp) Xte' (y_train sp) (y_test sp)).
    split; [|split; [reflexivity | split; [reflexivity | exact H17]]].
    unfold Trainer.cell15.
    apply (train_test_split_intro _ _ _ _ _ train test); try assumption.
    + rewrite length_values. congruence.
    + rewrite length_values, Hn. exact Hs.
  - split; [reflexivity|]. split; [reflexivity|].
    split; [intros p; apply In_ParameterGrid|].
    apply GridSearchCV_fit_inv, H17.
Qed.

(** C10.  The split of cell 26 draws the same train and test indices as
    the split of cell 15: same number of rows, same labels, same fraction,
    same seed.  So the rows and labels the two-dimensional model is fitted
    on are the projections and the labels of the training rows of cell 15,
    and likewise for the test rows. *)
Theorem pca_split_matches_primary_split
    (X_selected : DataFrame.t) (y : Series) sp X_pca best_params sp_pca svm_2d :
  Trainer.cell15 X_selected y = Some sp ->
  Visualisation.cell25 X_selected = Some X_pca ->
  Visualisation.cell26 X_pca y best_params = Some (sp_pca, svm_2d) ->
  exists train test (project : row -> row),
    shuffle_split (nrows X_selected) (3 # 10) 42 y = Some (train, test)
    /\ X_pca = map project (values X_selected)
    /\ take_rows train (values X_selected) = Some (X_train sp)
    /\ take_rows test (values X_selected) = Some (X_test sp)
    /\ take_rows train X_pca = Some (X_train sp_pca)
    /\ take_rows test X_pca = Some (X_test sp_pca)
    /\ X_train sp_pca = map project (X_train sp)
    /\ X_test sp_pca = map project (X_test sp)
    /\ y_train sp_pca = y_train sp
    /\ y_test sp_pca = y_test sp
    /\ fit (Visualisation.svm_2d_estimator best_params)
           (map project (X_train sp)) (y_train sp) = Some svm_2d.
Proof.
  intros H15 H25 H26.
  unfold Trainer.cell15 in H15.
  apply train_test_split_inv in H15
    as (Hlen & train & test & Hs & Hxtr & Hxte & Hytr & Hyte).
  unfold Visualisation.cell25 in H25.
  destruct (PCA_fit 2 _) as [pca|]; [|easy]. simpl in H25.
  injection H25 as <-. rewrite map_map in H26.
  unfold Visualisation.cell26 in H26.
  destruct (train_test_split _ _ _ _ _) as [sp2|] eqn:Hsp2; [|easy]. simpl in H26.
  destruct (fit _ _ _) as [m|] eqn:Hfit; [|easy]. simpl in H26.
  injection H26 as <- <-.
  apply train_test_split_inv in Hsp2
    as (_ & train' & test' & Hs' & Hxtr' & Hxte' & Hytr' & Hyte').
  rewrite length_map in Hs'.
  rewrite Hs in Hs'. injection Hs' as <- <-.
  rewrite take_rows_map in Hxtr', Hxte'.
  rewrite Hxtr in Hxtr'. rewrite Hxte in Hxte'. simpl in Hxtr', Hxte'.
  injection Hxtr' as Hxtr'. injection Hxte' as Hxte'.
  rewrite Hytr in Hytr'. rewrite Hyte in Hyte'.
  injection Hytr' as Hytr'. injection Hyte' as Hyte'.
  rewrite length_values in Hs.
  exists train, test.
  exists (fun r => pca (StandardScaler_fit (values X_selected) r)).
  rewrite map_map, !take_rows_map, Hxtr, Hxte. simpl.
  rewrite Hxtr', Hxte', Hytr', Hyte'.
  repeat (split; [reflexivity || assumption|]). exact Hfit.
Qed.

End Split.

End TrainerTheorems.


(** ** The notebook on a four-row table *)

Module Examples.

Import DataFrame FeatureSelector Sk Notebook Toy ToyFacts Sample.
Local Open Scope Q_scope.

Example cell10_raw1 : Prepare.cell10 raw1 = Some (df1, X1, cls1).
Proof. reflexivity. Qed.

Example feature_diffs_df1 :
  feature_diffs df1 X1
  = Some [("a", F64.Fin (16 # 8)); ("b", F64.PInf);
          ("c", F64.Fin (0 # 40)); ("z", F64.Fin 0)]%string.
Proof. reflexivity. Qed.

Example top_features_df1 : top_features df1 X1 = Some ["b"; "a"; "c"; "z"]%string.
Proof. reflexivity. Qed.

Example cell15_X1 : Trainer.cell15 X1 cls1 = Some split1.
Proof. reflexivity. Qed.

Example cell17_split1 : Trainer.cell17 split1 = Some search1.
Proof. reflexivity. Qed.

Lemma wf_df1 : wf df1.
Proof. split; [repeat constructor | compute_done]. Qed.

#[export] Instance library_laws : LibraryLaws library.
Proof.
  split. intros n test_size seed stratify train test. simpl. unfold toy_split.
  destruct (Nat.ltb_spec (Z.to_nat (Qceiling (test_size * inject_Z (Z.of_nat n)))) n)
    as [Hlt|]; [|easy].
  intros [= <- <-]. rewrite Permutation_app_comm, <- seq_app.
  now replace (Z.to_nat (Qceiling (test_size * inject_Z (Z.of_nat n)))
               + (n - Z.to_nat (Qceiling (test_size * inject_Z (Z.of_nat n)))))%nat
    with n by lia.
Qed.







Lemma explainer_skipped_witness :
  exists (o : Run.outcome (L := library)) w1,
    Run.run_all true raw1 world0 = Some (o, w1)
    /\ exists w2,
         Run.run_all false raw1 world0 = Some (o, w2)
         /\ fs w2 = fs w1 /\ shown_warnings w2 = shown_warnings w1
         /\ In "SHAP analysis skipped because libraries are not installed." (stdout w2)
         /\ In "LIME analysis skipped because libraries are not installed." (stdout w2).
Proof.
  destruct (Run.run_all true raw1 world0) as [[o w1]|] eqn:H;
    [|vm_compute in H; discriminate].
  exists o, w1. split; [reflexivity|].
  destruct (NotebookTheorems.explainer_skipped_when_unavailable raw1 world0)
    as (_ & _ & _ & _ & Hsame & Hlines).
  destruct (Hsame o w1 H) as (w2 & H2 & Hfs & Hsh).
  exists w2. destruct (Hlines o w2 H2). auto.
Defined.


Lemma saved_paths_witness :
  exists w1,
    Persister.cell36 (3%nat) ["b"; "a"]%string world0 = Some (tt, w1)
    /\ fs w1 !! "svm_nimda_1min_model.pkl" = Some "mmm"
    /\ fs w1 !! "bgp_anomaly_svm_model.pkl" = None
    /\ fs w1 !! "bgp_anomaly_selected_features.csv" = None.
Proof.
  destruct (PersisterTheorems.saved_paths_reloaded_printed_paths_untouched
              (3%nat) ["b"; "a"]%string world0)
    as (w1 & H36 & Hm & _ & _ & _ & Hp1 & Hp2 & _).
  exists w1. split; [exact H36|]. split; [exact Hm|]. split; [exact Hp1 | exact Hp2].
Defined.

Lemma split_then_grid_search_witness :
  Trainer.cell15 X1 cls1 = Some split1
  /\ Trainer.cell17 split1 = Some search1
  /\ In (best_params_ search1) (ParameterGrid Trainer.param_grid)
  /\ forall p, In p (ParameterGrid Trainer.param_grid) ->
       beats (best_score_ search1)
             (cross_val_score (set_params Trainer.pipeline p) 5 f1
                (X_train split1) (y_train split1)) = false.
Proof.
  assert (H15 : Trainer.cell15 X1 cls1 = Some split1) by reflexivity.
  assert (H17 : Trainer.cell17 split1 = Some search1) by reflexivity.
  split; [exact H15|]. split; [exact H17|].
  destruct (TrainerTheorems.split_then_grid_search (Laws := library_laws)
              X1 cls1 split1 search1 H15 H17)
    as (_ & _ & _ & _ & Hin & _ & Hbest & _).
  auto.
Defined.

Lemma pca_split_witness :
  Trainer.cell15 X1 cls1 = Some split1
  /\ Visualisation.cell25 X1 = Some X_pca1
  /\ Visualisation.cell26 X_pca1 cls1 (best_params_ search1) = Some (split_pca1, 2%nat)
  /\ exists project : row -> row,
       X_train split_pca1 = map project (X_train split1)
       /\ X_test split_pca1 = map project (X_test split1)
       /\ y_train split_pca1 = y_train split1
       /\ y_test split_pca1 = y_test split1.
Proof.
  assert (H15 : Trainer.cell15 X1 cls1 = Some split1) by reflexivity.
  assert (H25 : Visualisation.cell25 X1 = Some X_pca1) by reflexivity.
  assert (H26 : Visualisation.cell26 X_pca1 cls1 (best_params_ search1)
                = Some (split_pca1, 2%nat)) by reflexivity.
  split; [exact H15|]. split; [exact H25|]. split; [exact H26|].
  destruct (TrainerTheorems.pca_split_matches_primary_split (L := library)
              X1 cls1 split1 X_pca1 (best_params_ search1) split_pca1 2%nat
              H15 H25 H26)
    as (train & test & project & _ & _ & _ & _ & _ & _ & H1 & H2 & H3 & H4 & _).
  exists project. auto.
Defined.

End Examples.


(** * Further properties *)

(** ** Cell 10 *)

Module PrepareTheorems.

Import DataFrame Prepare Notions.

Lemma filter_none_named (col : string) (l : list (string * Series)) :
  existsb (String.eqb col) (map fst l) = false ->
  List.filter (fun cs => negb (String.eqb (fst cs) col)) l = l.
Proof.
  induction l as [|[c s] l IH]; simpl; [reflexivity|].
  intros H. apply orb_false_iff in H as [Hc H].
  rewrite String.eqb_sym, Hc. simpl. now rewrite IH.
Qed.

Lemma lookup_col_present (col : string) (l : list (string * Series)) :
  existsb (String.eqb col) (map fst l) = true -> is_Some (lookup_col col l).
Proof.
  induction l as [|[c s] l IH]; simpl; [easy|].
  rewrite (String.eqb_sym col c). destruct (String.eqb c col); simpl; eauto.
Qed.

Lemma lookup_col_absent (col : string) (l : list (string * Series)) :
  existsb (String.eqb col) (map fst l) = false -> lookup_col col l = None.
Proof.
  induction l as [|[c s] l IH]; simpl; [easy|].
  rewrite (String.eqb_sym col c). destruct (String.eqb c col); simpl; [easy | exact IH].
Qed.

(** Guarded by [if col in df.columns], [df.drop(col)] is a plain filter. *)
Lemma drop_if_present (col : string) (df : DataFrame.t) :
  (if has_column col df then drop col df else Some df)
  = Some (mk (nrows df)
             (List.filter (fun cs => negb (String.eqb (fst cs) col)) (cols df))).
Proof.
  unfold has_column, columns, drop, getitem.
  destruct (existsb _ _) eqn:E.
  - destruct (lookup_col_present _ _ E) as [s ->]. reflexivity.
  - rewrite (filter_none_named _ _ E). now destruct df.
Qed.

Lemma drop_present_filter (names : list string) : forall df,
  drop_present names df
  = Some (mk (nrows df)
             (List.filter (fun cs => negb (existsb (String.eqb (fst cs)) names))
                          (cols df))).
Proof.
  induction names as [|col names IH]; intros df; simpl.
  - f_equal. destruct df as [n l]. simpl. f_equal.
    induction l as [|cs l IHl]; simpl; [reflexivity | now rewrite <- IHl].
  - pose proof (drop_if_present col df) as Hd.
    destruct (has_column col df).
    + rewrite Hd. simpl. rewrite IH. simpl. f_equal. f_equal.
      clear. induction (cols df) as [|cs l IHl]; simpl; [reflexivity|].
      destruct (String.eqb (fst cs) col); simpl; [exact IHl|].
      destruct (existsb _ names); simpl; [exact IHl | now rewrite IHl].
    + injection Hd as Hd. rewrite IH. f_equal. f_equal.
      rewrite Hd at 1. simpl.
      clear. induction (cols df) as [|cs l IHl]; simpl; [reflexivity|].
      destruct (String.eqb (fst cs) col); simpl; [exact IHl|].
      destruct (existsb _ names); simpl; [exact IHl | now rewrite IHl].
Qed.

Lemma lookup_col_filter (p : string * Series -> bool) (col : string)
    (l : list (string * Series)) :
  (forall s, p (col, s) = true) ->
  lookup_col col (List.filter p l) = lookup_col col l.
Proof.
  intros Hp. induction l as [|[c s] l IH]; simpl; [reflexivity|].
  destruct (String.eqb_spec c col) as [->|Hne].
  - rewrite Hp. simpl. now rewrite String.eqb_refl.
  - destruct (p (c, s)); simpl; [|exact IH].
    destruct (String.eqb_spec c col); [contradiction | exact IH].
Qed.

Lemma filter_filter {A} (p q : A -> bool) (l : list A) :
  List.filter q (List.filter p l) = List.filter (fun a => p a && q a) l.
Proof.
  induction l as [|a l IH]; simpl; [reflexivity|].
  destruct (p a); simpl; [|exact IH].
  destruct (q a); simpl; now rewrite IH.
Qed.

Lemma cell10_value (raw : DataFrame.t) :
  cell10 raw
  = match getitem "class" raw with
    | None => None
    | Some y =>
        Some (mk (nrows raw) (List.filter kept (cols raw)),
              mk (nrows raw) (List.filter feature (cols raw)),
              y)
    end.
Proof.
  unfold cell10. rewrite drop_present_filter.
  change (fun cs : string * Series =>
            negb (existsb (String.eqb (fst cs)) columns_to_drop)) with kept.
  change (Some ?d ≫= ?k) with (k d). cbv beta.
  unfold drop, getitem. cbn [cols nrows].
  rewrite (lookup_col_filter kept "class") by reflexivity.
  destruct (lookup_col "class" (cols raw)) as [y|]; [|reflexivity].
  change (Some ?d ≫= ?k) with (k d). cbv beta. cbn [cols nrows].
  rewrite filter_filter. reflexivity.
Qed.

Lemma In_reserved (c : string) :
  existsb (String.eqb c) columns_to_drop = true
  <-> c = "timestamp" \/ c = "timestamp2" \/ c = "Unnamed: 0".
Proof.
  unfold columns_to_drop. simpl. rewrite !orb_true_iff, !String.eqb_eq.
  intuition congruence.
Qed.

(** X1.  Cell 10 raises exactly when the table has no [class] column: the
    guard [if col in df.columns] makes the three drops safe.  Otherwise [y]
    is the [class] column, [df] and [X] keep the index and the table order,
    [df] loses exactly the columns named timestamp, timestamp2 or
    [Unnamed: 0], and [X] loses the [class] column as well. *)
Theorem cell10_outcome (raw : DataFrame.t) :
  (cell10 raw = None <-> getitem "class" raw = None)
  /\ forall df X y,
       cell10 raw = Some (df, X, y) ->
       getitem "class" raw = Some y
       /\ nrows df = nrows raw /\ nrows X = nrows raw
       /\ cols df = List.filter kept (cols raw)
       /\ cols X = List.filter feature (cols raw)
       /\ (forall c s, In (c, s) (cols df) <->
             In (c, s) (cols raw)
             /\ c <> "timestamp" /\ c <> "timestamp2" /\ c <> "Unnamed: 0")
       /\ (forall c s, In (c, s) (cols X) <-> In (c, s) (cols df) /\ c <> "class").
Proof.
  rewrite cell10_value. split.
  - destruct (getitem "class" raw); split; congruence.
  - intros df X y. destruct (getitem "class" raw) as [y'|]; [|easy].
    intros [= <- <- <-]. cbn [nrows cols].
    repeat (split; [reflexivity|]). split.
    + intros c s. rewrite List.filter_In. unfold kept. cbn [fst].
      rewrite negb_true_iff, <- not_true_iff_false, In_reserved. tauto.
    + intros c s. rewrite !List.filter_In. unfold feature. cbn [fst].
      rewrite andb_true_iff, negb_true_iff.
      destruct (String.eqb_spec c "class"); intuition congruence.
Qed.

End PrepareTheorems.

(** ** Cells 10 to 13 together, and the selector's edges *)

Module SelectionTheorems.

Import DataFrame FeatureSelector Notions.
Local Open Scope Q_scope.

Lemma wf_filter (p : string * Series -> bool) (df : DataFrame.t) :
  wf df -> wf (mk (nrows df) (List.filter p (cols df))).
Proof.
  intros [Hlen Hnd]. split; cbn [nrows cols].
  - apply List.Forall_forall. intros cs Hcs. apply List.filter_In in Hcs as [Hcs _].
    rewrite List.Forall_forall in Hlen. now apply Hlen.
  - unfold columns. cbn [cols]. now apply FrameFacts.NoDup_map_filter.
Qed.

(** What cell 10 hands to cell 12. *)
Lemma cell10_inv (raw df X : DataFrame.t) (y : Series) :
  wf raw -> Prepare.cell10 raw = Some (df, X, y) ->
  wf df /\ drop "class" df = Some X /\ getitem "class" df = Some y
  /\ nrows X = nrows raw
  /\ (forall cs, In cs (cols X) -> In cs (cols raw) /\ feature cs = true).
Proof.
  intros Hwf H. rewrite PrepareTheorems.cell10_value in H.
  destruct (getitem "class" raw) as [y'|] eqn:Hy; [|easy].
  injection H as <- <- <-.
  assert (Hget : getitem "class" (mk (nrows raw) (List.filter kept (cols raw))) = Some y').
  { unfold getitem. cbn [cols].
    now rewrite (PrepareTheorems.lookup_col_filter kept "class") by reflexivity. }
  split; [now apply wf_filter|]. split; [|split; [exact Hget|split; [reflexivity|]]].
  - unfold drop. rewrite Hget. cbn [nrows cols].
    now rewrite PrepareTheorems.filter_filter.
  - intros cs Hcs. cbn [cols] in Hcs. now apply List.filter_In in Hcs.
Qed.

Lemma getcols_Some (names : list string) (X : DataFrame.t) :
  (forall c, In c names -> In c (columns X)) ->
  exists cs,
    getcols names X = Some cs
    /\ map fst cs = names
    /\ forall c s, In (c, s) cs -> In (c, s) (cols X).
Proof.
  induction names as [|c names IH]; intros Hin.
  - exists []. repeat split; easy.
  - destruct IH as (cs & Hcs & Hn & Hsub); [intros; apply Hin; now right|].
    assert (Hc : is_Some (getitem c X)).
    { apply PrepareTheorems.lookup_col_present.
      apply existsb_exists. exists c. split; [|apply String.eqb_refl].
      apply Hin. now left. }
    destruct Hc as [s Hs]. exists ((c, s) :: cs).
    simpl. rewrite Hs. simpl. rewrite Hcs. simpl.
    split; [reflexivity|]. split; [now rewrite Hn|].
    intros c' s' [[= <- <-]|H']; [|now apply Hsub].
    now apply FrameFacts.lookup_col_Some.
Qed.

Lemma NoDup_firstn {A} (n : nat) (l : list A) : NoDup l -> NoDup (firstn n l).
Proof.
  intros H. rewrite <- (firstn_skipn n l) in H. now apply NoDup_app in H as [H _].
Qed.

Lemma In_firstn {A} (n : nat) (l : list A) (x : A) : In x (firstn n l) -> In x l.
Proof.
  intros H. rewrite <- (firstn_skipn n l). apply in_or_app. now left.
Qed.

(** X2.  On a well-formed table with a [class] column, cells 10 to 13 run
    through without a [KeyError]: at most 15 names are selected, all
    different, each the name of a column of the table and none of them
    timestamp, timestamp2, [Unnamed: 0] or class; [X_selected] holds
    exactly these columns of the table, in the order of the list, over the
    whole index. *)
Theorem prepare_then_select (raw df X : DataFrame.t) (y : Series) :
  wf raw -> Prepare.cell10 raw = Some (df, X, y) ->
  exists top X_selected,
    cell13 df X = Some (top, X_selected)
    /\ NoDup top
    /\ length top = Nat.min 15 (length (columns X))
    /\ (forall c, In c top ->
          In c (columns raw)
          /\ c <> "timestamp" /\ c <> "timestamp2" /\ c <> "Unnamed: 0"
          /\ c <> "class")
    /\ columns X_selected = top
    /\ nrows X_selected = nrows raw
    /\ (forall c s, In (c, s) (cols X_selected) -> In (c, s) (cols raw))
    /\ wf X_selected.
Proof.
  intros Hwf H10.
  destruct (cell10_inv raw df X y Hwf H10) as (Hwfdf & HX & Hy & Hn & Hfeat).
  pose proof (SelectorTheorems.feature_diff_df_spec df X y Hwfdf HX Hy) as Hfdf.
  set (d := map (fun cs => (fst cs, Spec.shift_of y (snd cs))) (cols X)) in *.
  assert (Hperm : Permutation (map fst (sort_values d)) (columns X)).
  { unfold columns. replace (map fst (cols X)) with (map fst d)
      by (unfold d; now rewrite map_map).
    apply Permutation_map, SortFacts.sort_values_perm. }
  assert (HndX : NoDup (columns X)) by (eapply FrameFacts.drop_NoDup; [exact HX | apply Hwfdf]).
  set (top := firstn 15 (map fst (sort_values d))).
  assert (Htop : top_features df X = Some top).
  { unfold top_features, top_k, head. rewrite Hfdf. simpl. unfold top.
    now rewrite firstn_map. }
  assert (HinX : forall c, In c top -> In c (columns X)).
  { intros c Hc. apply In_firstn in Hc. now rewrite <- Hperm. }
  destruct (getcols_Some top X HinX) as (cs & Hcs & Hnames & Hsub).
  exists top, (mk (nrows X) cs).
  assert (Hndtop : NoDup top).
  { apply NoDup_firstn. now rewrite Hperm. }
  split.
  { unfold cell13. rewrite Htop. simpl. unfold getitems. rewrite Hcs. reflexivity. }
  split; [exact Hndtop|]. split.
  { unfold top. rewrite length_firstn. now rewrite (Permutation_length Hperm). }
  split.
  { intros c Hc. apply HinX in Hc. unfold columns in Hc.
    apply in_map_iff in Hc as ([c' s] & <- & Hcs').
    destruct (Hfeat _ Hcs') as [Hraw Hf]. cbn [fst].
    split; [unfold columns; apply in_map_iff; exists (c', s); auto|].
    unfold feature, kept in Hf. cbn [fst] in Hf.
    apply andb_true_iff in Hf as [Hk Hc].
    apply negb_true_iff in Hk, Hc.
    apply not_true_iff_false in Hk. rewrite PrepareTheorems.In_reserved in Hk.
    destruct (String.eqb_spec c' "class"); [discriminate|]. tauto. }
  split; [exact Hnames|]. split; [exact Hn|]. split.
  { intros c s Hc. cbn [cols] in Hc. now apply Hfeat, Hsub. }
  split; cbn [nrows cols].
  - apply List.Forall_forall. intros [c s] Hc. apply Hsub in Hc.
    assert (Hlen : wf (mk (nrows X) (cols X))).
    { apply FrameFacts.drop_Some in HX as [HnX HcX]. rewrite HnX, HcX.
      now apply wf_filter. }
    destruct Hlen as [Hlen _]. rewrite List.Forall_forall in Hlen. now apply Hlen in Hc.
  - unfold columns. cbn [cols]. now rewrite Hnames.
Qed.

(** ** No anomaly row, no normal row *)

Lemma select_none (cls s : Series) (v : Q) :
  existsb (fun c => Qeq_bool c v) cls = false -> select (eq_scalar cls v) s = [].
Proof.
  revert s. induction cls as [|c cls IH]; intros [|x s] H; try reflexivity.
  simpl in *. apply orb_false_iff in H as [Hc H]. rewrite Hc. now apply IH.
Qed.

Lemma dict_get_shift (df X : DataFrame.t) (cls : Series) col s :
  wf df -> drop "class" df = Some X -> In (col, s) (cols X) ->
  dict_get col (map (fun cs => (fst cs, Spec.shift_of cls (snd cs))) (cols X))
  = Some (Spec.shift_of cls s).
Proof.
  intros Hwf HX Hin.
  apply (SelectorFacts.dict_get_map (Spec.shift_of cls)); [|exact Hin].
  apply (FrameFacts.drop_NoDup _ _ _ HX), Hwf.
Qed.


Lemma filter_true {A} (p : A -> bool) (l : list A) :
  (forall a, In a l -> p a = true) -> List.filter p l = l.
Proof.
  induction l as [|a l IH]; intros H; simpl; [reflexivity|].
  rewrite (H a) by now left. f_equal. apply IH. intros; apply H; now right.
Qed.

Lemma filter_false {A} (p : A -> bool) (l : list A) :
  (forall a, In a l -> p a = false) -> List.filter p l = [].
Proof.
  induction l as [|a l IH]; intros H; simpl; [reflexivity|].
  rewrite (H a) by now left. apply IH. intros; apply H; now right.
Qed.

(** X4.  With no row labelled 0 every normal mean is NaN and so is every
    stored change; the sort then leaves the frame as it is, and the
    selection is the first 15 feature columns in table order, with no
    error. *)
Theorem no_normal_rows_select_first_columns (df X : DataFrame.t) (cls : Series) :
  wf df -> drop "class" df = Some X -> getitem "class" df = Some cls ->
  existsb (fun c => Qeq_bool c 0) cls = false ->
  feature_diffs df X = Some (map (fun c => (c, F64.NaN)) (columns X))
  /\ feature_diff_df df X = Some (map (fun c => (c, F64.NaN)) (columns X))
  /\ top_features df X = Some (firstn 15 (columns X)).
Proof.
  intros Hwf HX Hcls Hno.
  assert (Hd : map (fun cs => (fst cs, Spec.shift_of cls (snd cs))) (cols X)
               = map (fun c => (c, F64.NaN)) (columns X)).
  { unfold columns. rewrite map_map. apply map_ext. intros [c s]. cbn [fst snd].
    unfold Spec.shift_of, Spec.mean_normal. now rewrite (select_none cls s 0 Hno). }
  assert (Hfd : feature_diffs df X = Some (map (fun c => (c, F64.NaN)) (columns X))).
  { rewrite <- Hd. exact (SelectorFacts.feature_diffs_spec df cls Hwf Hcls X HX). }
  assert (Hsort : sort_values (map (fun c => (c, F64.NaN)) (columns X))
                  = map (fun c => (c, F64.NaN)) (columns X)).
  { unfold sort_values. rewrite filter_false, filter_true.
    - reflexivity.
    - intros r Hr. apply in_map_iff in Hr as (c & <- & _). reflexivity.
    - intros r Hr. apply in_map_iff in Hr as (c & <- & _). reflexivity. }
  assert (Hfdf : feature_diff_df df X = Some (map (fun c => (c, F64.NaN)) (columns X))).
  { unfold feature_diff_df. rewrite Hfd. simpl. now rewrite Hsort. }
  split; [exact Hfd|]. split; [exact Hfdf|].
  unfold top_features, top_k, head. rewrite Hfdf. simpl.
  rewrite <- firstn_map, map_map. simpl. now rewrite map_id.
Qed.

(** ** Ranking *)

Lemma sorted_lookup {A} (R : A -> A -> Prop) (l : list A) :
  StronglySorted R l ->
  forall (i j : nat) x y, l !! i = Some x -> l !! j = Some y -> (i < j)%nat -> R x y.
Proof.
  induction 1 as [|a l Hs IH Ha]; intros i j x y Hi Hj Hlt.
  - destruct i; discriminate.
  - destruct j as [|j]; [lia|]. destruct i as [|i]; simpl in *.
    + injection Hi as <-. rewrite List.Forall_forall in Ha. apply Ha.
      apply list_elem_of_In. eapply list_elem_of_lookup_2, Hj.
    + eapply IH; eauto. lia.
Qed.

(** X5.  The ranked frame puts a feature whose change is larger in absolute
    value strictly before one whose change is smaller or not a number; so
    whatever the number of rows kept by [head], no feature is selected
    while a feature of strictly larger absolute change is left out. *)
Theorem larger_change_ranks_first (df X : DataFrame.t) (k : nat) :
  wf df -> drop "class" df = Some X ->
  exists fdf top,
    feature_diff_df df X = Some fdf
    /\ top_k k df X = Some top
    /\ forall (i j : nat) ci cj vi vj,
         fdf !! i = Some (ci, vi) -> fdf !! j = Some (cj, vj) ->
         F64.is_nan vi = false ->
         F64.leb (F64.abs vi) (F64.abs vj) = false ->
         (i < j)%nat /\ (In cj top -> In ci top).
Proof.
  intros Hwf HX.
  destruct (SelectorFacts.drop_class_Some df X HX) as [cls Hcls].
  pose proof (SelectorTheorems.feature_diff_df_spec df X cls Hwf HX Hcls) as Hfdf.
  set (d := map (fun cs => (fst cs, Spec.shift_of cls (snd cs))) (cols X)) in *.
  exists (sort_values d), (map fst (firstn k (sort_values d))).
  split; [exact Hfdf|]. split; [unfold top_k, head; now rewrite Hfdf|].
  assert (Hnd : NoDup (map fst (sort_values d))).
  { assert (Hperm : Permutation (map fst (sort_values d)) (columns X)).
    { unfold columns. replace (map fst (cols X)) with (map fst d)
        by (unfold d; now rewrite map_map).
      apply Permutation_map, SortFacts.sort_values_perm. }
    rewrite Hperm. eapply FrameFacts.drop_NoDup; [exact HX | apply Hwf]. }
  intros i j ci cj vi vj Hi Hj Hnan Hlt.
  assert (Hij : (i < j)%nat).
  { destruct (Nat.lt_trichotomy i j) as [H|[->|H]]; [exact H| |].
    - rewrite Hi in Hj. injection Hj as _ <-.
      rewrite F64Facts.leb_refl in Hlt; [discriminate|].
      now rewrite F64Facts.abs_nan.
    - pose proof (sorted_lookup rank_ge _ (SortFacts.sort_values_sorted d)
                    j i _ _ Hj Hi H) as [Hn|Hge].
      + unfold key in Hn. cbn [snd] in Hn. rewrite F64Facts.abs_nan in Hn. congruence.
      + unfold key_ge, key in Hge. cbn [snd] in Hge. congruence. }
  split; [exact Hij|].
  intros Hin. apply in_map_iff in Hin as ([c v] & Hc & Hin). cbn [fst] in Hc. subst c.
  apply list_elem_of_In, list_elem_of_lookup in Hin as [j' Hj'].
  assert (Hj'k : (j' < k)%nat).
  { apply lookup_lt_Some in Hj'. rewrite length_firstn in Hj'. lia. }
  rewrite lookup_take_lt in Hj' by exact Hj'k.
  assert (j' = j).
  { assert (H1 : map fst (sort_values d) !! j' = Some cj)
      by (rewrite TrainerFacts.lookup_map, Hj'; reflexivity).
    assert (H2 : map fst (sort_values d) !! j = Some cj)
      by (rewrite TrainerFacts.lookup_map; exact (f_equal (fmap fst) Hj)).
    exact (NoDup_lookup _ j' j cj Hnd H1 H2). }
  subst j'. apply in_map_iff. exists (ci, vi). split; [reflexivity|].
  apply list_elem_of_In, list_elem_of_lookup. exists i.
  rewrite lookup_take_lt by lia. exact Hi.
Qed.

(** ** Rows with another label *)

Lemma select_nil_r (mask : list bool) : select mask [] = [].
Proof. now destruct mask. Qed.

Lemma select_labelled (cls s : Series) (v : Q) :
  (v == 0 \/ v == 1) ->
  select (eq_scalar (select (labelled cls) cls) v) (select (labelled cls) s)
  = select (eq_scalar cls v) s.
Proof.
  intros Hv. revert s. induction cls as [|c cls IH]; intros [|x s]; try reflexivity.
  - simpl. now rewrite select_nil_r.
  - simpl. destruct (Qeq_bool c v) eqn:Ecv.
    + assert (Hk : Qeq_bool c 0 || Qeq_bool c 1 = true).
      { apply Qeq_bool_iff in Ecv. apply orb_true_iff.
        destruct Hv as [Hv|Hv]; [left | right]; apply Qeq_bool_iff;
          now rewrite Ecv. }
      rewrite Hk. simpl. rewrite Ecv. now rewrite IH.
    + destruct (Qeq_bool c 0 || Qeq_bool c 1); simpl; [rewrite Ecv|]; apply IH.
Qed.

Lemma existsb_labelled (cls : Series) (v : Q) :
  (v == 0 \/ v == 1) ->
  existsb (fun c => Qeq_bool c v) (select (labelled cls) cls)
  = existsb (fun c => Qeq_bool c v) cls.
Proof.
  intros Hv. induction cls as [|c cls IH]; [reflexivity|].
  simpl. destruct (Qeq_bool c v) eqn:Ecv.
  - assert (Hk : Qeq_bool c 0 || Qeq_bool c 1 = true).
    { apply Qeq_bool_iff in Ecv. apply orb_true_iff.
      destruct Hv as [Hv|Hv]; [left | right]; apply Qeq_bool_iff; now rewrite Ecv. }
    rewrite Hk. simpl. now rewrite Ecv.
  - destruct (Qeq_bool c 0 || Qeq_bool c 1); simpl; [rewrite Ecv|]; exact IH.
Qed.

Lemma wf_getrows (mask : list bool) (df : DataFrame.t) :
  wf df -> length mask = nrows df -> wf (getrows mask df).
Proof.
  intros [Hlen Hnd] Hm. split.
  - cbn [getrows nrows cols]. apply List.Forall_forall. intros cs Hcs.
    apply in_map_iff in Hcs as (cs' & <- & Hcs'). cbn [snd].
    rewrite List.Forall_forall in Hlen.
    apply FrameFacts.length_select. rewrite Hm. symmetry. now apply Hlen.
  - unfold columns. cbn [getrows cols]. rewrite map_map. exact Hnd.
Qed.

(** X6.  Rows whose label is neither 0 nor 1 belong to neither group:
    taking them out of the table changes no entry of [feature_diffs], and
    so nothing of the ranking and of the selection. *)
Theorem other_labels_ignored (df X : DataFrame.t) (cls : Series) :
  wf df -> drop "class" df = Some X -> getitem "class" df = Some cls ->
  feature_diffs (getrows (labelled cls) df) (getrows (labelled cls) X)
  = feature_diffs df X
  /\ top_features (getrows (labelled cls) df) (getrows (labelled cls) X)
     = top_features df X.
Proof.
  intros Hwf HX Hcls.
  assert (Hlen : length (labelled cls) = nrows df).
  { unfold labelled. rewrite length_map.
    destruct Hwf as [Hl _]. rewrite List.Forall_forall in Hl.
    apply FrameFacts.lookup_col_Some in Hcls. now apply Hl in Hcls. }
  assert (Hwf' : wf (getrows (labelled cls) df)) by now apply wf_getrows.
  assert (Hcls' : getitem "class" (getrows (labelled cls) df)
                  = Some (select (labelled cls) cls)).
  { rewrite FrameFacts.getitem_getrows, Hcls. reflexivity. }
  assert (HX' : drop "class" (getrows (labelled cls) df)
                = Some (getrows (labelled cls) X)).
  { unfold drop. rewrite Hcls'. f_equal. unfold getrows. cbn [nrows cols].
    apply FrameFacts.drop_Some in HX as [_ ->]. f_equal.
    clear. induction (cols df) as [|cs l IH]; simpl; [reflexivity|].
    destruct (String.eqb (fst cs) "class"); simpl; now rewrite IH. }
  assert (Hfd : feature_diffs (getrows (labelled cls) df) (getrows (labelled cls) X)
                = feature_diffs df X).
  { rewrite (SelectorFacts.feature_diffs_spec _ _ Hwf' Hcls' _ HX').
    rewrite (SelectorFacts.feature_diffs_spec df cls Hwf Hcls X HX).
    f_equal. cbn [getrows cols]. rewrite map_map. apply map_ext.
    intros [c s]. cbn [fst snd]. f_equal.
    unfold Spec.shift_of, Spec.mean_normal, Spec.mean_anomaly.
    rewrite !select_labelled, existsb_labelled; try reflexivity.
    - right. reflexivity.
    - right. reflexivity.
    - left. reflexivity. }
  split; [exact Hfd|].
  unfold top_features, top_k, feature_diff_df. now rewrite Hfd.
Qed.

End SelectionTheorems.

(** ** What a run reads and what it leaves behind *)

Module RunEffects.

Import DataFrame Sk Notebook MonadFacts Notions.

Lemma oblivious_bind {A B} (m : M A) (k : A -> M B) :
  oblivious m -> (forall a, oblivious (k a)) -> oblivious (m ≫= k).
Proof.
  intros Hm Hk w1 w2 Hq1 Hq2. specialize (Hm w1 w2 Hq1 Hq2).
  unfold mbind, M_bind, bind.
  destruct (m w1) as [[a1 w1']|], (m w2) as [[a2 w2']|]; try easy.
  destruct Hm as (<- & Hq1' & Hq2'). now apply Hk.
Qed.

Lemma oblivious_lift {A} (o : option A) : oblivious (lift o).
Proof. intros w1 w2 Hq1 Hq2. unfold lift. now destruct o. Qed.

Lemma oblivious_ret {A} (a : A) : oblivious (mret a).
Proof. intros w1 w2 Hq1 Hq2. now cbn. Qed.

Lemma oblivious_print s : oblivious (print s).
Proof. intros w1 w2 Hq1 Hq2. now cbn. Qed.

Lemma oblivious_warn ws : oblivious (warn ws).
Proof.
  intros w1 w2 Hq1 Hq2. unfold warn. unfold quiet in *. now rewrite Hq1, Hq2.
Qed.

Create HintDb oblivious.
#[export] Hint Resolve oblivious_lift oblivious_ret oblivious_print oblivious_warn
  : oblivious.

Ltac oblivious_steps :=
  repeat (apply oblivious_bind; [solve [auto with oblivious] | intros ?]);
  repeat match goal with
         | p : (_ * _)%type |- _ => destruct p
         end;
  cbv beta iota zeta.

Lemma oblivious_cell20 y_test y_pred : oblivious (Evaluator.cell20 y_test y_pred).
Proof. unfold Evaluator.cell20. repeat oblivious_steps. auto with oblivious. Qed.

(** What a stage leaves of the state it starts from. *)
Lemma cell20_effect y_test y_pred w m w' :
  Evaluator.cell20 y_test y_pred w = Some (m, w') ->
  fs w' = fs w /\ ignore_warnings w' = ignore_warnings w
  /\ (quiet w -> shown_warnings w' = shown_warnings w)
  /\ exists lines, stdout w' = stdout w ++ lines.
Proof.
  intros H. unfold Evaluator.cell20 in H.
  repeat RunFacts.inv_bind H. RunFacts.inv_prim.
  injection Hst1 as _ <-. cbn [fs ignore_warnings shown_warnings stdout].
  unfold quiet. destruct (ignore_warnings w) eqn:Hig; cbn; repeat split; eauto; easy.
Qed.

Section Runs.

Context {L : Library} {E : Explainer.Explainability model}
        {P : Persister.Persistence model}.

Lemma oblivious_cell32 flag sp : oblivious (Explainer.cell32 flag sp).
Proof.
  unfold Explainer.cell32. destruct flag; [|auto with oblivious].
  repeat oblivious_steps. auto with oblivious.
Qed.

Lemma oblivious_cell34 flag sp names m : oblivious (Explainer.cell34 flag sp names m).
Proof.
  unfold Explainer.cell34. destruct flag; [|auto with oblivious].
  apply oblivious_bind; [auto with oblivious | intros ex].
  destruct (Explainer.where_eq 1 0 (y_test sp)); [auto with oblivious|].
  apply oblivious_bind; auto with oblivious.
Qed.

(** Cell 38 reads what cell 36 has just written, whatever was there. *)
Lemma oblivious_save_load {A} (m : model) (top : list string)
    (k : model * list string -> M A) :
  (forall r, oblivious (k r)) ->
  oblivious (Persister.cell36 m top ≫= fun _ => Persister.cell38 ≫= k).
Proof.
  intros Hk w1 w2 Hq1 Hq2. unfold mbind, M_bind, bind.
  rewrite !PersisterTheorems.cell36_run, !PersisterTheorems.cell38_run.
  cbn [fs stdout ignore_warnings shown_warnings].
  rewrite !(lookup_insert_ne _ Persister.features_path Persister.model_path) by easy.
  rewrite !lookup_insert_eq.
  destruct (Persister.joblib_loads _) as [lm|]; [|exact I].
  destruct (Persister.read_csv _) as [frame|]; [|exact I].
  destruct (Persister.column "Feature" frame) as [sf|]; [|exact I].
  now apply Hk.
Qed.

Lemma oblivious_cells_4_to_38 flag raw : oblivious (Run.cells_4_to_38 flag raw).
Proof.
  unfold Run.cells_4_to_38.
  repeat oblivious_steps.
  apply oblivious_bind; [apply oblivious_cell20 | intros ?].
  repeat oblivious_steps.
  apply oblivious_bind; [apply oblivious_cell32 | intros ?].
  apply oblivious_bind; [apply oblivious_cell34 | intros ?].
  apply oblivious_save_load. intros [lm sf]. auto with oblivious.
Qed.

(** X7.  What a run computes does not depend on the state it starts in:
    from any two interpreter states (files already in the directory, lines
    already printed, warnings shown, filter set or not) the run raises in
    both or returns the same variables in both.  In particular the model
    and the feature list it loads are never those of an earlier run. *)
Theorem run_ignores_initial_state (import_ok : bool) (raw : DataFrame.t)
    (w1 w2 : world) :
  fst <$> Run.run_all import_ok raw w1 = fst <$> Run.run_all import_ok raw w2.
Proof.
  unfold Run.run_all, mbind, M_bind, bind.
  destruct (RunFacts.cell2_run import_ok w1) as (w1' & -> & _ & Hq1 & _).
  destruct (RunFacts.cell2_run import_ok w2) as (w2' & -> & _ & Hq2 & _).
  pose proof (oblivious_cells_4_to_38 import_ok raw w1' w2' Hq1 Hq2) as H.
  destruct (Run.cells_4_to_38 import_ok raw w1') as [[o1 w1'']|],
           (Run.cells_4_to_38 import_ok raw w2') as [[o2 w2'']|]; try easy.
  destruct H as [-> _]. reflexivity.
Qed.

Lemma cell32_effect flag sp w w' :
  Explainer.cell32 flag sp w = Some (tt, w') ->
  fs w' = fs w /\ ignore_warnings w' = ignore_warnings w
  /\ shown_warnings w' = shown_warnings w
  /\ exists lines, stdout w' = stdout w ++ lines.
Proof.
  destruct flag.
  - intros H. unfold Explainer.cell32 in H. RunFacts.inv_bind H. RunFacts.inv_prim.
    repeat split. exists []. now rewrite app_nil_r.
  - rewrite RunTheorems.cell32_skipped. intros [= <-]. cbn. repeat split. eauto.
Qed.

Lemma cell34_effect flag sp names m w w' :
  Explainer.cell34 flag sp names m w = Some (tt, w') ->
  fs w' = fs w /\ ignore_warnings w' = ignore_warnings w
  /\ shown_warnings w' = shown_warnings w
  /\ exists lines, stdout w' = stdout w ++ lines.
Proof.
  destruct flag.
  - intros H. unfold Explainer.cell34 in H. RunFacts.inv_bind H.
    destruct (Explainer.where_eq 1 0 (y_test sp)).
    + RunFacts.inv_prim. cbn. repeat split. eauto.
    + RunFacts.inv_bind H. RunFacts.inv_prim.
      repeat split. exists []. now rewrite app_nil_r.
  - rewrite RunTheorems.cell34_skipped. intros [= <-]. cbn. repeat split. eauto.
Qed.

(** The stages of a completed run with what each leaves of the state. *)
Lemma cells_4_to_38_effect flag raw w o w' :
  Run.cells_4_to_38 flag raw w = Some (o, w') ->
  is_Some (getitem "class" raw)
  /\ is_Some (getitem "timestamp" raw)
  /\ fs w' = <[Persister.features_path := Persister.to_csv "Feature" (Run.top_features o)]>
               (<[Persister.model_path :=
                    Persister.joblib_dumps (best_estimator_ (Run.search o))]> (fs w))
  /\ ignore_warnings w' = ignore_warnings w
  /\ (quiet w -> shown_warnings w' = shown_warnings w)
  /\ exists lines, stdout w' = stdout w ++ lines.
Proof.
  intros H. unfold Run.cells_4_to_38 in H.
  repeat RunFacts.inv_bind H. RunFacts.inv_prim.
  repeat match goal with u : unit |- _ => destruct u end.
  match goal with
  | H20 : Evaluator.cell20 _ _ _ = Some _ |- _ =>
      apply cell20_effect in H20 as (Hfs20 & Hig20 & Hsh20 & l20 & Hout20)
  end.
  match goal with
  | H32 : Explainer.cell32 _ _ _ = Some _ |- _ =>
      apply cell32_effect in H32 as (Hfs32 & Hig32 & Hsh32 & l32 & Hout32)
  end.
  match goal with
  | H34 : Explainer.cell34 _ _ _ _ _ = Some _ |- _ =>
      apply cell34_effect in H34 as (Hfs34 & Hig34 & Hsh34 & l34 & Hout34)
  end.
  match goal with
  | H36 : Persister.cell36 _ _ _ = Some _ |- _ =>
      rewrite PersisterTheorems.cell36_run in H36; injection H36 as <-
  end.
  match goal with
  | H38 : Persister.cell38 _ = Some _ |- _ =>
      rewrite PersisterTheorems.cell38_run in H38;
      cbn [fs stdout ignore_warnings shown_warnings] in H38;
      repeat match type of H38 with
             | context [match ?x with Some _ => _ | None => _ end] => destruct x
             end; try discriminate;
      injection H38 as <- <- <-
  end.
  cbn [fs stdout ignore_warnings shown_warnings Run.top_features Run.search] in *.
  split.
  { match goal with
    | H10 : Prepare.cell10 raw = Some _ |- _ =>
        rewrite PrepareTheorems.cell10_value in H10;
        destruct (getitem "class" raw); [eauto | discriminate]
    end. }
  split; [eauto|].
  split; [congruence|]. split; [congruence|].
  split.
  { intros Hq. rewrite Hsh34, Hsh32. apply Hsh20. exact Hq. }
  eexists. rewrite Hout34, Hout32, Hout20. rewrite <- !app_assoc. reflexivity.
Qed.

(** X8.  A completed run leaves exactly two marks on the directory: the
    file 'svm_nimda_1min_model.pkl' holds the pickled best model and
    'nimda_1_bgp_anomaly_selected_features.csv' the selected names, every
    other file is as before.  It shows no warning, leaves the warning
    filter in force, and only adds to what was printed. *)
Theorem run_leaves_two_files_and_no_warning import_ok raw w o w' :
  Run.run_all import_ok raw w = Some (o, w') ->
  fs w' = <["nimda_1_bgp_anomaly_selected_features.csv" :=
              Persister.to_csv "Feature" (Run.top_features o)]>
            (<["svm_nimda_1min_model.pkl" :=
                 Persister.joblib_dumps (best_estimator_ (Run.search o))]> (fs w))
  /\ (forall path,
        path <> "svm_nimda_1min_model.pkl" ->
        path <> "nimda_1_bgp_anomaly_selected_features.csv" ->
        fs w' !! path = fs w !! path)
  /\ shown_warnings w' = shown_warnings w
  /\ ignore_warnings w' = true
  /\ exists lines, stdout w' = stdout w ++ lines.
Proof.
  intros Hrun.
  apply RunFacts.run_all_stages in Hrun as (w1 & H2 & Hrun).
  destruct (RunFacts.cell2_run import_ok w) as (w1' & H2' & Hfs & Hig & Hsh & Hout).
  rewrite H2' in H2. injection H2 as ->.
  apply cells_4_to_38_effect in Hrun as (_ & _ & Hfs' & Hig' & Hsh' & lines & Hout').
  assert (Hfiles : fs w'
            = <[Persister.features_path := Persister.to_csv "Feature" (Run.top_features o)]>
                (<[Persister.model_path :=
                     Persister.joblib_dumps (best_estimator_ (Run.search o))]> (fs w)))
    by (rewrite Hfs', Hfs; reflexivity).
  split; [exact Hfiles|]. split.
  { intros path H1 H2. rewrite Hfiles. now rewrite !lookup_insert_ne. }
  split; [rewrite Hsh'; [exact Hsh | exact Hig]|].
  split; [congruence|].
  eexists. rewrite Hout', Hout, <- app_assoc. reflexivity.
Qed.

(** X9.  A run needs the [class] column (cell 10) and the [timestamp]
    column (cell 28): without either it raises, although cell 10 itself
    goes through on a table that has no [timestamp] column. *)
Theorem run_needs_class_and_timestamp import_ok raw w :
  getitem "class" raw = None \/ getitem "timestamp" raw = None ->
  Run.run_all import_ok raw w = None
  /\ (is_Some (getitem "class" raw) -> is_Some (Prepare.cell10 raw)).
Proof.
  intros Hmiss. split.
  - destruct (Run.run_all import_ok raw w) as [[o w']|] eqn:Hrun; [|reflexivity].
    apply RunFacts.run_all_stages in Hrun as (w1 & _ & Hrun).
    apply cells_4_to_38_effect in Hrun as ([y Hy] & [t Ht] & _).
    destruct Hmiss; congruence.
  - intros [y Hy]. rewrite PrepareTheorems.cell10_value, Hy. eauto.
Qed.

End Runs.

End RunEffects.

(** ** The held-out split and the cells that use it *)

Module SplitTheorems.

Import DataFrame Sk Notebook Metrics TrainerFacts.

Lemma take_rows_length {A} (idx : list nat) (l r : list A) :
  take_rows idx l = Some r -> length r = length idx.
Proof. intros H. symmetry. exact (length_mapM _ _ _ H). Qed.

Lemma take_rows_In {A} (idx : list nat) (l r : list A) (x : A) :
  take_rows idx l = Some r -> In x r -> In x l.
Proof.
  unfold take_rows. revert r. induction idx as [|i idx IH]; intros r H Hx; simpl in H.
  - injection H as <-. destruct Hx.
  - destruct (l !! i) as [a|] eqn:Hi; [|easy]. simpl in H.
    destruct (mapM _ idx) as [r'|] eqn:Hm; [|easy]. injection H as <-.
    destruct Hx as [<-|Hx].
    + apply list_elem_of_In. eapply list_elem_of_lookup_2; eauto.
    + eapply IH; eauto.
Qed.

(** *** Labels that occur *)

Lemma existsb_dup (x v : Q) (l : list Q) :
  existsb (Qeq_bool x) l = true -> Qeq_bool x v = true ->
  existsb (fun c => Qeq_bool c v) l = true.
Proof.
  intros Hx Hv. apply existsb_exists in Hx as (e & He & Hxe).
  apply existsb_exists. exists e. split; [exact He|].
  apply Qeq_bool_trans with x; [|exact Hv]. now rewrite Qeq_bool_sym.
Qed.

Lemma existsb_unique_labels (v : Q) (l : list Q) :
  existsb (fun c => Qeq_bool c v) (unique_labels l)
  = existsb (fun c => Qeq_bool c v) l.
Proof.
  induction l as [|x l IH]; [reflexivity|]. simpl.
  destruct (existsb (Qeq_bool x) l) eqn:Hdup.
  - rewrite IH. destruct (Qeq_bool x v) eqn:Hv; [|reflexivity].
    simpl. now apply existsb_dup with x.
  - simpl. now rewrite IH.
Qed.

Lemma length_unique_labels (l : list Q) :
  Forall (fun c => c == 0 \/ c == 1)%Q l ->
  length (unique_labels l)
  = ((if existsb (fun c => Qeq_bool c 0) l then 1 else 0)
     + (if existsb (fun c => Qeq_bool c 1) l then 1 else 0))%nat.
Proof.
  induction l as [|x l IH]; intros Hl; [reflexivity|].
  apply List.Forall_cons_iff in Hl as [Hx Hl]. specialize (IH Hl). simpl.
  destruct (existsb (Qeq_bool x) l) eqn:Hdup.
  - rewrite IH.
    destruct (Qeq_bool x 0) eqn:H0; simpl.
    + rewrite (existsb_dup x 0 l Hdup H0).
      destruct (Qeq_bool x 1) eqn:H1; simpl; [|reflexivity].
      now rewrite (existsb_dup x 1 l Hdup H1).
    + destruct (Qeq_bool x 1) eqn:H1; simpl; [|reflexivity].
      now rewrite (existsb_dup x 1 l Hdup H1).
  - simpl. rewrite IH.
    assert (Hnot : forall v, Qeq_bool x v = true ->
              existsb (fun c => Qeq_bool c v) l = false).
    { intros v Hv. destruct (existsb (fun c => Qeq_bool c v) l) eqn:He; [|reflexivity].
      apply existsb_exists in He as (e & He & Hev).
      assert (existsb (Qeq_bool x) l = true); [|congruence].
      apply existsb_exists. exists e. split; [exact He|].
      apply Qeq_bool_trans with v; [exact Hv|]. now rewrite Qeq_bool_sym. }
    destruct Hx as [Hx|Hx].
    + assert (H0 : Qeq_bool x 0 = true) by now apply Qeq_bool_iff.
      assert (H1 : Qeq_bool x 1 = false).
      { destruct (Qeq_bool x 1) eqn:H1; [|reflexivity].
        apply Qeq_bool_iff in H1. rewrite Hx in H1. discriminate. }
      rewrite H0, H1, (Hnot 0%Q H0). simpl. reflexivity.
    + assert (H1 : Qeq_bool x 1 = true) by now apply Qeq_bool_iff.
      assert (H0 : Qeq_bool x 0 = false).
      { destruct (Qeq_bool x 0) eqn:H0; [|reflexivity].
        apply Qeq_bool_iff in H0. rewrite Hx in H0. discriminate. }
      rewrite H0, H1, (Hnot 1%Q H1). simpl.
      destruct (existsb (fun c => Qeq_bool c 0) l); reflexivity.
Qed.

Lemma binary_target_01 (y_true y_pred : Series) :
  Forall (fun c => c == 0 \/ c == 1)%Q y_true ->
  Forall (fun c => c == 0 \/ c == 1)%Q y_pred ->
  binary_target y_true y_pred = true.
Proof.
  intros Ht Hp. unfold binary_target. cbv zeta.
  assert (Hall : Forall (fun c => c == 0 \/ c == 1)%Q (y_true ++ y_pred))
    by (apply List.Forall_app; auto).
  rewrite (length_unique_labels _ Hall).
  unfold is_pos. rewrite existsb_unique_labels.
  destruct (existsb (fun c => Qeq_bool c 0) (y_true ++ y_pred)),
           (existsb (fun c => Qeq_bool c 1) (y_true ++ y_pred)); reflexivity.
Qed.

(** *** The first anomaly of the test labels *)

Lemma where_eq_none (v : Q) (y : Series) : forall i,
  existsb (fun c => Qeq_bool c v) y = false -> Explainer.where_eq v i y = [].
Proof.
  induction y as [|x y IH]; intros i H; [reflexivity|]. simpl in *.
  apply orb_false_iff in H as [-> H]. now apply IH.
Qed.

Lemma where_eq_first (v : Q) (pre : Series) (a : Q) (post : Series) : forall i,
  existsb (fun c => Qeq_bool c v) pre = false -> Qeq_bool a v = true ->
  Explainer.where_eq v i (pre ++ a :: post)
  = (i + length pre)%nat :: Explainer.where_eq v (S (i + length pre)) post.
Proof.
  induction pre as [|x pre IH]; intros i Hpre Ha; simpl in *.
  - rewrite Ha, Nat.add_0_r. reflexivity.
  - apply orb_false_iff in Hpre as [-> Hpre]. rewrite (IH (S i) Hpre Ha).
    now rewrite Nat.add_succ_r.
Qed.

Section Split.

Context {L : Library}.

Lemma cell15_lengths X_selected y sp :
  Trainer.cell15 X_selected y = Some sp ->
  length (X_test sp) = length (y_test sp)
  /\ length (X_train sp) = length (y_train sp)
  /\ (forall c, In c (y_test sp) -> In c y)
  /\ (forall c, In c (y_train sp) -> In c y).
Proof.
  intros H. unfold Trainer.cell15 in H.
  apply TrainerTheorems.train_test_split_inv in H
    as (_ & train & test & _ & Hxtr & Hxte & Hytr & Hyte).
  apply take_rows_length in Hxtr as Hl1. apply take_rows_length in Hxte as Hl2.
  apply take_rows_length in Hytr as Hl3. apply take_rows_length in Hyte as Hl4.
  split; [congruence|]. split; [congruence|].
  split; intros c Hc.
  - exact (take_rows_In test y _ c Hyte Hc).
  - exact (take_rows_In train y _ c Hytr Hc).
Qed.


(** X11.  The split of cell 26 cannot raise once cell 15 and cell 25 went
    through: cell 26 raises exactly when the fit of the two-dimensional
    SVC on the projected training rows does.  That SVC has no scaler in
    front of it and never takes gamma = 'auto'; a numeric gamma of the
    search is kept. *)
Theorem cell26_raises_only_in_fit
    (X_selected : DataFrame.t) (y : Series) sp X_pca best_params :
  Trainer.cell15 X_selected y = Some sp ->
  Visualisation.cell25 X_selected = Some X_pca ->
  (exists sp_pca,
     train_test_split X_pca y (3 # 10) 42 y = Some sp_pca
     /\ y_train sp_pca = y_train sp /\ y_test sp_pca = y_test sp
     /\ length (X_train sp_pca) = length (X_train sp)
     /\ length (X_test sp_pca) = length (X_test sp)
     /\ Visualisation.cell26 X_pca y best_params
        = match fit (Visualisation.svm_2d_estimator best_params)
                    (X_train sp_pca) (y_train sp_pca) with
          | Some svm_2d => Some (sp_pca, svm_2d)
          | None => None
          end)
  /\ scaler (Visualisation.svm_2d_estimator best_params) = false
  /\ gamma (svm (Visualisation.svm_2d_estimator best_params)) <> auto
  /\ (forall v, svm__gamma best_params = gamma_value v ->
        gamma (svm (Visualisation.svm_2d_estimator best_params)) = gamma_value v).
Proof.
  intros H15 H25. split.
  - unfold Trainer.cell15 in H15.
    apply TrainerTheorems.train_test_split_inv in H15
      as (Hlen & train & test & Hs & Hxtr & Hxte & Hytr & Hyte).
    unfold Visualisation.cell25 in H25. cbv zeta in H25.
    destruct (PCA_fit 2 _) as [pca|]; [|easy].
    change (Some pca ≫= ?k) with (k pca) in H25. cbv beta in H25.
    injection H25 as <-. rewrite map_map.
    set (project := fun r => pca (StandardScaler_fit (values X_selected) r)).
    exists (mkSplit (map project (X_train sp)) (map project (X_test sp))
                    (y_train sp) (y_test sp)).
    assert (Hsp : train_test_split (map project (values X_selected)) y (3 # 10) 42 y
                  = Some (mkSplit (map project (X_train sp)) (map project (X_test sp))
                                  (y_train sp) (y_test sp))).
    { apply (TrainerTheorems.train_test_split_intro _ _ _ _ _ train test);
        try assumption.
      - now rewrite length_map.
      - now rewrite length_map.
      - now rewrite take_rows_map, Hxtr.
      - now rewrite take_rows_map, Hxte. }
    split; [exact Hsp|]. cbn [X_train X_test y_train y_test].
    rewrite !length_map. repeat (split; [reflexivity|]).
    unfold Visualisation.cell26. rewrite Hsp.
    change (Some ?s ≫= ?k) with (k s). cbv beta. cbn [X_train y_train].
    destruct (fit _ _ _); reflexivity.
  - split; [reflexivity|]. split.
    + simpl. destruct (svm__gamma best_params); easy.
    + intros v Hv. simpl. now rewrite Hv.
Qed.

Context {E : Explainer.Explainability model}.

(** X12.  With LIME installed, cell 34 explains the row of the test split
    at the position of the first test label equal to 1, with ten
    features; that row always exists, so the cell raises only inside
    LIME.  When no test label is 1 it builds the explainer and prints
    that no anomaly was found. *)
Theorem lime_explains_first_test_anomaly
    (X_selected : DataFrame.t) (y : Series) sp
    (feature_names : list string) (best_model : model) (w : world) :
  Trainer.cell15 X_selected y = Some sp ->
  (existsb (fun c => Qeq_bool c 1) (y_test sp) = false ->
   Explainer.cell34 true sp feature_names best_model w
   = match Explainer.LimeTabularExplainer (X_train sp) feature_names with
     | Some _ =>
         Some (tt, mkWorld (fs w) (stdout w ++ ["No anomalies found in test set"])
                     (ignore_warnings w) (shown_warnings w))
     | None => None
     end)
  /\ (forall pre a post,
        y_test sp = pre ++ a :: post ->
        existsb (fun c => Qeq_bool c 1) pre = false -> Qeq_bool a 1 = true ->
        exists r,
          X_test sp !! length pre = Some r
          /\ Explainer.cell34 true sp feature_names best_model w
             = match Explainer.LimeTabularExplainer (X_train sp) feature_names with
               | Some explainer =>
                   match Explainer.explain_instance explainer r best_model 10 with
                   | Some _ => Some (tt, w)
                   | None => None
                   end
               | None => None
               end).
Proof.
  intros H15. apply cell15_lengths in H15 as (Hlen & _). split.
  - intros Hnone. unfold Explainer.cell34, mbind, M_bind, bind, lift.
    rewrite (where_eq_none _ _ 0 Hnone).
    destruct (Explainer.LimeTabularExplainer _ _); reflexivity.
  - intros pre a post Hy Hpre Ha.
    assert (Hlt : (length pre < length (X_test sp))%nat).
    { rewrite Hlen, Hy, length_app. simpl. lia. }
    apply lookup_lt_is_Some_2 in Hlt as [r Hr]. exists r. split; [exact Hr|].
    unfold Explainer.cell34, mbind, M_bind, bind, lift.
    rewrite Hy, (where_eq_first _ _ _ _ 0 Hpre Ha). simpl "+".
    rewrite Hr.
    destruct (Explainer.LimeTabularExplainer _ _) as [ex|]; [|reflexivity].
    destruct (Explainer.explain_instance ex r best_model 10) as [[]|]; reflexivity.
Qed.

End Split.

(** *** The winner of the search *)

Lemma beats_before a b c :
  beats a c = false -> beats a b = true -> beats c b = true.
Proof.
  unfold beats. intros Hac Hab.
  apply andb_true_iff in Hab as [Hb Hab]. rewrite Hb. simpl.
  destruct (F64.is_nan c) eqn:Hc; [reflexivity|]. simpl in *.
  destruct (F64.is_nan a) eqn:Ha; [discriminate|]. simpl in *.
  apply negb_false_iff in Hac. apply negb_true_iff in Hab. apply negb_true_iff.
  destruct (F64.leb b c) eqn:Hbc; [|reflexivity].
  assert (F64.leb b a = true) by (eapply F64Facts.leb_trans; eauto).
  congruence.
Qed.

Lemma beats_irrefl a : beats a a = false.
Proof.
  unfold beats. destruct (F64.is_nan a) eqn:Ha; [reflexivity|].
  simpl. now rewrite F64Facts.leb_refl.
Qed.

Lemma argmax_from_first (l : list F64.t) : forall pre best_i best,
  pre !! best_i = Some best ->
  (forall x, In x pre -> beats best x = false) ->
  (forall j x, (j < best_i)%nat -> pre !! j = Some x -> beats x best = true) ->
  exists b,
    (pre ++ l) !! argmax_from best_i best (length pre) l = Some b
    /\ forall j x, (j < argmax_from best_i best (length pre) l)%nat ->
         (pre ++ l) !! j = Some x -> beats x b = true.
Proof.
  induction l as [|x l IH]; intros pre best_i best Hbest Hpre Hbefore; simpl.
  - exists best. rewrite app_nil_r. auto.
  - replace (pre ++ x :: l) with ((pre ++ [x]) ++ l) by now rewrite <- app_assoc.
    replace (S (length pre)) with (length (pre ++ [x]))
      by (rewrite length_app; simpl; lia).
    destruct (beats best x) eqn:Hbx.
    + apply IH.
      * rewrite lookup_app_r by lia. now rewrite Nat.sub_diag.
      * intros z Hz. apply in_app_or in Hz as [Hz|[<-|[]]].
        -- destruct (beats x z) eqn:Hxz; [|reflexivity].
           pose proof (beats_trans best x z Hbx Hxz) as Hbz.
           specialize (Hpre z Hz). congruence.
        -- apply beats_irrefl.
      * intros j z Hj Hz. rewrite lookup_app_l in Hz by exact Hj.
        apply beats_before with best; [|exact Hbx].
        apply Hpre. apply list_elem_of_In. eapply list_elem_of_lookup_2; eauto.
    + apply IH.
      * rewrite lookup_app_l by (eapply lookup_lt_Some; eauto). exact Hbest.
      * intros z Hz. apply in_app_or in Hz as [Hz|[<-|[]]]; auto.
      * intros j z Hj Hz. apply (Hbefore j z Hj).
        rewrite lookup_app_l in Hz; [exact Hz|].
        apply lookup_lt_Some in Hbest. lia.
Qed.

Lemma argmax_first (l : list F64.t) (i : nat) :
  argmax l = Some i ->
  exists b, l !! i = Some b
    /\ forall j x, (j < i)%nat -> l !! j = Some x -> beats x b = true.
Proof.
  destruct l as [|x l]; [easy|]. intros [= <-].
  apply (argmax_from_first l [x] 0 x); [reflexivity| |].
  - intros z [<-|[]]. apply beats_irrefl.
  - intros j z Hj. lia.
Qed.

Section Search.

Context {L : Library}.

Lemma GridSearchCV_fit_first e g cv scoring X y :
  ParameterGrid g <> [] ->
  exists i p,
    ParameterGrid g !! i = Some p
    /\ (forall j q, (j < i)%nat -> ParameterGrid g !! j = Some q ->
          beats (cross_val_score (set_params e q) cv scoring X y)
                (cross_val_score (set_params e p) cv scoring X y) = true)
    /\ (forall q, In q (ParameterGrid g) ->
          beats (cross_val_score (set_params e p) cv scoring X y)
                (cross_val_score (set_params e q) cv scoring X y) = false)
    /\ GridSearchCV_fit e g cv scoring X y
       = match fit (set_params e p) X y with
         | Some m => Some (mkSearch p (cross_val_score (set_params e p) cv scoring X y) m)
         | None => None
         end.
Proof.
  unfold GridSearchCV_fit. generalize (ParameterGrid g). intros candidates Hne.
  cbv zeta.
  destruct (argmax _) as [i|] eqn:Harg.
  2:{ destruct candidates; [congruence | discriminate]. }
  change (Some i ≫= ?k) with (k i). cbv beta.
  destruct (argmax_first _ _ Harg) as (b & Hb & Hfirst).
  destruct (argmax_spec _ _ Harg) as (b' & Hb' & Hbest).
  rewrite Hb in Hb'. injection Hb' as <-.
  rewrite lookup_map in Hb.
  destruct (candidates !! i) as [p|] eqn:Hp; [|discriminate].
  injection Hb as <-.
  exists i, p. split; [exact Hp|].
  split.
  { intros j q Hj Hq. apply (Hfirst j); [exact Hj|]. now rewrite lookup_map, Hq. }
  split.
  { intros q Hq. apply Hbest. apply in_map_iff. eauto. }
  change (Some p ≫= ?k) with (k p). cbv beta.
  rewrite lookup_map, Hp.
  change (Some ?s ≫= ?k) with (k s). cbv beta.
  destruct (fit _ _ _); reflexivity.
Qed.


End Search.

End SplitTheorems.

(** ** Saving more than once *)

Module ReloadTheorems.

Import Notebook Persister.

Section Cells.

Context {model : Type} {P : Persistence model} {Laws : PersistenceLaws P}.


End Cells.

End ReloadTheorems.

(** ** The further properties on small tables *)

Module FurtherExamples.

Import DataFrame FeatureSelector Sk Notebook Toy ToyFacts Sample Tables Notions.
Local Open Scope Q_scope.

Lemma wf_raw1 : wf raw1.
Proof. split; [repeat constructor | compute_done]. Qed.

Lemma wf_normal_only : wf normal_only.
Proof. split; [repeat constructor | compute_done]. Qed.

Lemma wf_anomaly_only : wf anomaly_only.
Proof. split; [repeat constructor | compute_done]. Qed.

Lemma wf_third_label : wf third_label.
Proof. split; [repeat constructor | compute_done]. Qed.

Lemma prepare_then_select_witness :
  wf raw1 /\ Prepare.cell10 raw1 = Some (df1, X1, cls1) /\
  exists top X_selected,
    cell13 df1 X1 = Some (top, X_selected)
    /\ NoDup top
    /\ length top = 4%nat
    /\ columns X_selected = top
    /\ wf X_selected.
Proof.
  split; [exact wf_raw1|]. split; [reflexivity|].
  destruct (SelectionTheorems.prepare_then_select raw1 df1 X1 cls1 wf_raw1 eq_refl)
    as (top & X_selected & H13 & Hnd & Hlen & _ & Hcols & _ & _ & Hwf).
  exists top, X_selected. auto.
Defined.


Lemma no_normal_rows_witness :
  wf anomaly_only /\ drop "class" anomaly_only = Some features_only /\
  getitem "class" anomaly_only = Some [1; 1; 1] /\
  feature_diffs anomaly_only features_only
  = Some [("a"%string, F64.NaN); ("z"%string, F64.NaN)]
  /\ top_features anomaly_only features_only = Some ["a"; "z"]%string.
Proof.
  split; [exact wf_anomaly_only|]. split; [reflexivity|]. split; [reflexivity|].
  destruct (SelectionTheorems.no_normal_rows_select_first_columns
              anomaly_only features_only [1; 1; 1] wf_anomaly_only eq_refl eq_refl eq_refl)
    as (Hd & _ & Htop).
  split; [exact Hd | exact Htop].
Defined.

Lemma larger_change_ranks_first_witness :
  wf df1 /\ drop "class" df1 = Some X1 /\
  exists fdf top,
    feature_diff_df df1 X1 = Some fdf
    /\ top_k 2 df1 X1 = Some top
    /\ forall (i j : nat) ci cj vi vj,
         fdf !! i = Some (ci, vi) -> fdf !! j = Some (cj, vj) ->
         F64.is_nan vi = false ->
         F64.leb (F64.abs vi) (F64.abs vj) = false ->
         (i < j)%nat /\ (In cj top -> In ci top).
Proof.
  split; [exact Examples.wf_df1|]. split; [reflexivity|].
  exact (SelectionTheorems.larger_change_ranks_first df1 X1 2 Examples.wf_df1 eq_refl).
Defined.

Lemma other_labels_ignored_witness :
  wf third_label /\ drop "class" third_label = Some third_label_X /\
  getitem "class" third_label = Some [0; 0; 2; 1; 1] /\
  labelled [0; 0; 2; 1; 1] = [true; true; false; true; true] /\
  feature_diffs (getrows [true; true; false; true; true] third_label)
                (getrows [true; true; false; true; true] third_label_X)
  = feature_diffs third_label third_label_X.
Proof.
  split; [exact wf_third_label|]. split; [reflexivity|]. split; [reflexivity|].
  split; [reflexivity|].
  exact (proj1 (SelectionTheorems.other_labels_ignored
                  third_label third_label_X [0; 0; 2; 1; 1]
                  wf_third_label eq_refl eq_refl)).
Defined.

Lemma run_leaves_two_files_witness :
  exists (o : Run.outcome (L := library)) w',
    Run.run_all false raw1 world0 = Some (o, w')
    /\ (forall path,
          path <> "svm_nimda_1min_model.pkl"%string ->
          path <> "nimda_1_bgp_anomaly_selected_features.csv"%string ->
          fs w' !! path = fs world0 !! path)
    /\ shown_warnings w' = shown_warnings world0
    /\ ignore_warnings w' = true.
Proof.
  destruct (Run.run_all false raw1 world0) as [[o w']|] eqn:H;
    [|vm_compute in H; discriminate].
  exists o, w'. split; [reflexivity|].
  destruct (RunEffects.run_leaves_two_files_and_no_warning
              (L := library) (E := explainability) (P := persistence)
              false raw1 world0 o w' H) as (_ & Hother & Hsh & Hig & _).
  auto.
Defined.

Lemma run_needs_timestamp_witness :
  getitem "timestamp" df1 = None
  /\ Run.run_all (L := library) (E := explainability) (P := persistence)
       false df1 world0 = None
  /\ is_Some (Prepare.cell10 df1).
Proof.
  split; [reflexivity|].
  destruct (RunEffects.run_needs_class_and_timestamp
              (L := library) (E := explainability) (P := persistence)
              false df1 world0 (or_intror eq_refl)) as (Hrun & H10).
  split; [exact Hrun|]. apply H10. now exists cls1.
Defined.


Lemma cell26_split_witness :
  Trainer.cell15 X1 cls1 = Some split1
  /\ Visualisation.cell25 X1 = Some X_pca1
  /\ exists sp_pca,
       train_test_split (L := library) X_pca1 cls1 (3 # 10) 42 cls1 = Some sp_pca
       /\ y_train sp_pca = y_train split1 /\ y_test sp_pca = y_test split1.
Proof.
  split; [reflexivity|]. split; [reflexivity|].
  destruct (proj1 (SplitTheorems.cell26_raises_only_in_fit (L := library)
                     X1 cls1 split1 X_pca1 (mkParams 1 auto rbf) eq_refl eq_refl))
    as (sp_pca & Hsp & Hytr & Hyte & _).
  exists sp_pca. auto.
Defined.

Lemma lime_first_anomaly_witness :
  Trainer.cell15 anomaly_first_X anomaly_first_cls = Some anomaly_first_split
  /\ exists r,
       X_test anomaly_first_split !! 1%nat = Some r
       /\ Explainer.cell34 (L := library) (E := explainability)
            true anomaly_first_split ["a"; "b"]%string 2%nat world0
          = Some (tt, world0).
Proof.
  split; [reflexivity|].
  destruct (proj2 (SplitTheorems.lime_explains_first_test_anomaly
                     (L := library) (E := explainability)
                     anomaly_first_X anomaly_first_cls anomaly_first_split
                     ["a"; "b"]%string 2%nat world0 eq_refl)
              [0] 1 [] eq_refl eq_refl eq_refl) as (r & Hr & H34).
  exists r. split; [exact Hr | exact H34].
Defined.


End FurtherExamples.
